(** * The form intake pipeline of [server.js]

    A shallow embedding of the two submission routes of the backend
    ([POST /api/penelitian] for research permits, [POST /api/magang] for
    internship permits): the two field validators, the two file validators,
    the upload helper and the two route handlers, followed by the properties
    the specification states about them.

    The first model starts where the route's own code starts: at the
    request as [multer]'s [upload.fields] hands it on for a multipart
    submission, with [req.body] a mapping from field names to strings and
    [req.files] a mapping from slot names to arrays of parsed files.  The
    second, [Express], is the same code behind [upload.fields] and under
    express's error handling, on any request that can reach a route: a
    form that [upload.fields] refuses, a body that is not a multipart form
    and leaves [req.files] undefined, fields that are arrays or objects.
    Cloud Storage, Firestore, the identifier generator and the console are
    external; they appear as a [World] that the handlers thread through,
    with the points where they can fail left to arbitrary oracles. *)

From Stdlib Require Import String Ascii List ZArith Lia.
From Stdlib Require Import Strings.Byte DecimalString.
From stdpp Require Import base option list gmap strings.

Local Open Scope string_scope.
Local Open Scope list_scope.

(** ** Requests and responses *)

(** A parsed file part, as [multer.memoryStorage()] leaves it in
    [req.files[slot][i]]. *)
Record File := mkFile {
  originalname : string;
  mimetype : string;
  buffer : list byte
}.

Record Request := mkRequest {
  body : gmap string string;
  files : gmap string (list File)
}.

(** [res.status(code).json({ message })]. *)
Record Response := mkResponse {
  status : nat;
  message : string
}.

(** What a middleware does with a request: answer it, or call [next()]. *)
Inductive Middleware :=
| Next
| Respond (r : Response).

(** JavaScript's [!v] for the value found under a key of [req.body]:
    [undefined] (key absent) and the empty string are the falsy ones. *)
Definition falsy (v : option string) : bool :=
  match v with
  | None => true
  | Some s => String.eqb s EmptyString
  end.

(** [Array.prototype.includes] on an array of strings. *)
Definition includes (l : list string) (x : string) : bool :=
  existsb (String.eqb x) l.
Arguments includes : simpl never.

(** ** Field validation *)

(** The loop shared, verbatim, by both field validators:
    [for (const field of requiredFields) { if (!req.body[field]) return
    res.status(400).json({ message: `${field} is required` }); } next();] *)
Fixpoint requireFields (requiredFields : list string) (req : Request)
  : Middleware :=
  match requiredFields with
  | [] => Next
  | field :: rest =>
      if falsy (body req !! field)
      then Respond (mkResponse 400 (field +:+ " is required"))
      else requireFields rest req
  end.

Definition researchRequiredFields : list string :=
  [ "letterNumber"; "name"; "researcherName"; "address"; "inputValue";
    "institution"; "occupation"; "judulPenelitian"; "researchField";
    "tujuanPenelitian"; "supervisorName"; "teamMembers";
    "statusPenelitian"; "researchPeriod"; "researchLocation" ].

Definition internshipRequiredFields : list string :=
  [ "letterNumber"; "applicantsName"; "address"; "inputValue";
    "institution"; "occupation"; "judul"; "supervisorName";
    "tujuanPermohonan"; "teamMembers"; "statusPermohonan"; "period";
    "location" ].

Definition validateResearchForm : Request -> Middleware :=
  requireFields researchRequiredFields.

Definition validateInternshipForm : Request -> Middleware :=
  requireFields internshipRequiredFields.

(** ** File validation *)

Definition allowedMimeTypes : list string :=
  [ "application/pdf"; "image/jpeg"; "image/png" ].

(** The loop shared by both file validators.  A slot fails the first test
    when [req.files[file]] is [undefined] or an empty array; otherwise the
    declared type of its first file is looked up in [allowedMimeTypes]. *)
Fixpoint requireFiles (requiredFiles : list string) (req : Request)
  : Middleware :=
  match requiredFiles with
  | [] => Next
  | file :: rest =>
      match files req !! file with
      | None | Some [] =>
          Respond (mkResponse 400 ("File " +:+ file +:+ " is required"))
      | Some (f :: _) =>
          if includes allowedMimeTypes (mimetype f)
          then requireFiles rest req
          else Respond (mkResponse 400
                 ("File " +:+ file +:+ " must be a PDF, JPEG, or PNG"))
      end
  end.

Definition researchRequiredFiles : list string :=
  [ "suratPengantarFile"; "proposalFile"; "ktpFile" ].

Definition internshipRequiredFiles : list string :=
  [ "suratPermohonanFile"; "proposalFile"; "ktpFile" ].

Definition validateResearchFiles : Request -> Middleware :=
  requireFiles researchRequiredFiles.

Definition validateInternshipFiles : Request -> Middleware :=
  requireFiles internshipRequiredFiles.

(** ** The outside world *)

(** An object in the storage bucket. *)
Record Blob := mkBlob {
  blob_name : string;
  contentType : string;
  contents : list byte
}.

(** A JavaScript number: an IEEE double, by its sign, mantissa and binary
    exponent. *)
Inductive Double :=
| NaN
| Infinity (negative : bool)
| Finite (negative : bool) (mantissa : N) (exponent : Z).

(** A value that [req.body] can hold under a key: a string; or, for a
    repeated or bracketed form field, an array or an object; or, in a body
    that was not sent as a form, any other value of JSON. *)
#[warnings="-register-all"]
Inductive JsValue :=
| JsString (s : string)
| JsNumber (x : Double)
| JsBool (b : bool)
| JsNull
| JsArray (items : list JsValue)
| JsObject (props : list (string * JsValue)).

(** A value of a Firestore document field.  [DServerTimestamp] is the
    sentinel [admin.firestore.FieldValue.serverTimestamp()]; Firestore
    replaces it by its own clock's reading, [DTimestamp], when it commits
    the write.  [DUndefined] is what destructuring [req.body] yields for a
    key that is not there.  [DJs] is any other value of [req.body], handed
    on as it is. *)
Inductive DocValue :=
| DString (s : string)
| DNull
| DUndefined
| DServerTimestamp
| DTimestamp (t : Z)
| DJs (v : JsValue).

Definition Error := string.

(** Every interaction of the handlers with an external collaborator. *)
Inductive Event :=
| UuidDrawn (id : string)
| WriteStreamCreated (name ctype : string)
| StreamEnded (name : string) (data : list byte)
| StreamFinished (name : string)
| StreamFailed (name : string) (err : Error)
| AddCalled (path : string) (doc : gmap string DocValue)
| AddResolved (path : string)
| AddRejected (path : string) (err : Error)
| ConsoleError (context : string) (err : Error).

(** The state of everything outside the process: how many identifiers
    [uuidv4()] has handed out, the objects in the bucket (oldest first), the
    documents of each Firestore collection by path (oldest first),
    Firestore's clock, and the events so far (oldest first). *)
Record World := mkWorld {
  uuids_drawn : nat;
  storage : list Blob;
  firestore : gmap string (list (gmap string DocValue));
  now : Z;
  trace : list Event
}.

Definition emit (e : Event) (w : World) : World :=
  mkWorld (uuids_drawn w) (storage w) (firestore w) (now w) (trace w ++ [e]).

Definition draw (w : World) : World :=
  mkWorld (S (uuids_drawn w)) (storage w) (firestore w) (now w) (trace w).

Definition store (b : Blob) (w : World) : World :=
  mkWorld (uuids_drawn w) (storage w ++ [b]) (firestore w) (now w) (trace w).

Definition documents (path : string) (w : World)
  : list (gmap string DocValue) :=
  default [] (firestore w !! path).

Definition append (path : string) (doc : gmap string DocValue) (w : World)
  : World :=
  mkWorld (uuids_drawn w) (storage w)
          (<[path := documents path w ++ [doc]]> (firestore w))
          (now w) (trace w).

(** ** Promises *)

Inductive Outcome (A : Type) :=
| Resolved (a : A)
| Rejected (err : Error).
Arguments Resolved {A} a.
Arguments Rejected {A} err.

(** An awaited asynchronous computation: it runs to its outcome in the
    world it is started in, and leaves the world it ends in. *)
Definition Async (A : Type) : Type := World -> Outcome A * World.

#[global] Instance async_ret : MRet Async :=
  fun A a w => (Resolved a, w).

#[global] Instance async_bind : MBind Async :=
  fun A B k m w =>
    match m w with
    | (Resolved a, w') => k a w'
    | (Rejected err, w') => (Rejected err, w')
    end.

Definition reject {A} (err : Error) : Async A :=
  fun w => (Rejected err, w).

Definition console_error (context : string) (err : Error) : Async unit :=
  fun w => (Resolved tt, emit (ConsoleError context err) w).

(** ** [encodeURIComponent] *)

(** Strings of the model are sequences of code units below 256.  The
    unreserved characters are the letters, the digits and [- _ . ! ~ * ' ( )];
    every other character is replaced by the percent-escaped bytes of its
    UTF-8 encoding (one byte below 128, two from 128 on). *)
Definition unreserved (n : nat) : bool :=
  ((65 <=? n)%nat && (n <=? 90)%nat)
  || ((97 <=? n)%nat && (n <=? 122)%nat)
  || ((48 <=? n)%nat && (n <=? 57)%nat)
  || existsb (Nat.eqb n) [45; 95; 46; 33; 126; 42; 39; 40; 41]%nat.

Definition hexDigit (n : nat) : ascii :=
  ascii_of_nat (if (n <? 10)%nat then 48 + n else 55 + n).

Definition percent (n : nat) : string :=
  String "%" (String (hexDigit (n / 16)) (String (hexDigit (n mod 16))
    EmptyString)).

Definition encodeChar (c : ascii) : string :=
  let n := nat_of_ascii c in
  if unreserved n then String c EmptyString
  else if (n <? 128)%nat then percent n
  else percent (192 + n / 64) +:+ percent (128 + n mod 64).

Fixpoint encodeURIComponent (s : string) : string :=
  match s with
  | EmptyString => EmptyString
  | String c rest => encodeChar c +:+ encodeURIComponent rest
  end.

(** ** The pipeline *)

(** The external collaborators, as far as the handlers depend on them. *)
Class Platform := {
  (** the [n]-th identifier that [uuidv4()] hands out *)
  uuidv4 : nat -> string;
  (** [bucket.name] *)
  bucket_name : string;
  (** whether writing a blob, in a given world, ends in the stream's
      ['error'] event, and with which error *)
  stream_fault : World -> Blob -> option Error;
  (** whether [add] on a collection, in a given world, is rejected *)
  add_fault : World -> string -> gmap string DocValue -> option Error
}.

Section Pipeline.

Context `{Platform}.

Definition uuid : Async string :=
  fun w =>
    let id := uuidv4 (uuids_drawn w) in
    (Resolved id, emit (UuidDrawn id) (draw w)).

(** [blob.createWriteStream({ metadata: { contentType } })] followed by
    [blobStream.end(buffer)], awaited until ['finish'] or ['error']. *)
Definition writeStream (b : Blob) : Async unit :=
  fun w =>
    let w := emit (WriteStreamCreated (blob_name b) (contentType b)) w in
    let w := emit (StreamEnded (blob_name b) (contents b)) w in
    match stream_fault w b with
    | Some err => (Rejected err, emit (StreamFailed (blob_name b) err) w)
    | None => (Resolved tt, store b (emit (StreamFinished (blob_name b)) w))
    end.

Definition try_catch {A} (m : Async A) (handler : Error -> Async A)
  : Async A :=
  fun w =>
    match m w with
    | (Resolved a, w') => (Resolved a, w')
    | (Rejected err, w') => handler err w'
    end.

Definition publicUrl (name : string) : string :=
  "https://firebasestorage.googleapis.com/v0/b/" +:+ bucket_name
    +:+ "/o/" +:+ encodeURIComponent name +:+ "?alt=media".

Definition undefinedFile : Error :=
  "TypeError: Cannot read properties of undefined (reading 'originalname')".

(** [file] is [None] when the caller passes [undefined], the first element
    of an empty array; reading [file.originalname] then throws inside the
    [try], after [uuidv4()] has been evaluated. *)
Definition uploadFileToFirebase (file : option File) : Async string :=
  id ← uuid;
  match file with
  | None =>
      console_error "Error uploading file to Firebase:" undefinedFile;;
      reject undefinedFile
  | Some file =>
      let name := id +:+ "_" +:+ originalname file in
      try_catch
        (writeStream (mkBlob name (mimetype file) (buffer file)))
        (fun err => console_error "Blob stream error:" err;; reject err);;
      mret (publicUrl name)
  end.

(** What Firestore stores for a field it was handed. *)
Definition commit (t : Z) (v : DocValue) : DocValue :=
  match v with
  | DServerTimestamp => DTimestamp t
  | _ => v
  end.

(** [db.collection(..).doc(..).collection(..).add(doc)], awaited. *)
Definition add (path : string) (doc : gmap string DocValue) : Async unit :=
  fun w =>
    let w := emit (AddCalled path doc) w in
    match add_fault w path doc with
    | Some err => (Rejected err, emit (AddRejected path err) w)
    | None =>
        (Resolved tt,
         emit (AddResolved path) (append path (commit (now w) <$> doc) w))
    end.

(** A name bound by [const { ..., k, ... } = req.body]. *)
Definition field (req : Request) (k : string) : DocValue :=
  match body req !! k with
  | Some s => DString s
  | None => DUndefined
  end.

(** [req.files.slot ? await uploadFileToFirebase(req.files.slot[0]) : null] *)
Definition uploadSlot (req : Request) (slot : string) : Async DocValue :=
  match files req !! slot with
  | Some fs => url ← uploadFileToFirebase (head fs); mret (DString url)
  | None => mret DNull
  end.

Definition saved : Response := mkResponse 200 "Data berhasil disimpan".

Definition failed : Response :=
  mkResponse 500 "Terjadi kesalahan saat menyimpan data".

(** The handler's [try { ...; res.json(saved) } catch (err)
    { console.error(err); res.status(500).json(failed) }]. *)
Definition answer (attempt : Async unit) (w : World) : Response * World :=
  match attempt w with
  | (Resolved _, w') => (saved, w')
  | (Rejected err, w') => (failed, emit (ConsoleError EmptyString err) w')
  end.

Definition penelitianData : string := "pelayanan/penelitian/data".
Definition magangData : string := "pelayanan/magang/magang".

Definition penelitianHandler (req : Request) : World -> Response * World :=
  answer (
    suratPengantarUrl ← uploadSlot req "suratPengantarFile";
    proposalUrl ← uploadSlot req "proposalFile";
    ktpUrl ← uploadSlot req "ktpFile";
    add penelitianData (list_to_map [
      ("letterNumber", field req "letterNumber");
      ("name", field req "name");
      ("researcherName", field req "researcherName");
      ("address", field req "address");
      ("inputValue", field req "inputValue");
      ("institution", field req "institution");
      ("occupation", field req "occupation");
      ("judulPenelitian", field req "judulPenelitian");
      ("researchField", field req "researchField");
      ("tujuanPenelitian", field req "tujuanPenelitian");
      ("supervisorName", field req "supervisorName");
      ("teamMembers", field req "teamMembers");
      ("statusPenelitian", field req "statusPenelitian");
      ("researchPeriod", field req "researchPeriod");
      ("researchLocation", field req "researchLocation");
      ("suratPengantarUrl", suratPengantarUrl);
      ("proposalUrl", proposalUrl);
      ("ktpUrl", ktpUrl);
      ("timestamp", DServerTimestamp) ])).

Definition magangHandler (req : Request) : World -> Response * World :=
  answer (
    suratPermohonanUrl ← uploadSlot req "suratPermohonanFile";
    proposalUrl ← uploadSlot req "proposalFile";
    ktpUrl ← uploadSlot req "ktpFile";
    add magangData (list_to_map [
      ("letterNumber", field req "letterNumber");
      ("applicantsName", field req "applicantsName");
      ("address", field req "address");
      ("inputValue", field req "inputValue");
      ("institution", field req "institution");
      ("occupation", field req "occupation");
      ("judul", field req "judul");
      ("supervisorName", field req "supervisorName");
      ("tujuanPermohonan", field req "tujuanPermohonan");
      ("teamMembers", field req "teamMembers");
      ("statusPermohonan", field req "statusPermohonan");
      ("period", field req "period");
      ("location", field req "location");
      ("suratPermohonanUrl", suratPermohonanUrl);
      ("proposalUrl", proposalUrl);
      ("ktpUrl", ktpUrl);
      ("timestamp", DServerTimestamp) ])).

(** Express runs a route's middlewares in order; the first that answers
    ends the request, and the handler runs if all call [next()]. *)
Fixpoint route (middlewares : list (Request -> Middleware))
    (handler : Request -> World -> Response * World)
    (req : Request) (w : World) : Response * World :=
  match middlewares with
  | [] => handler req w
  | m :: rest =>
      match m req with
      | Respond r => (r, w)
      | Next => route rest handler req w
      end
  end.

Definition post_api_penelitian : Request -> World -> Response * World :=
  route [validateResearchForm; validateResearchFiles] penelitianHandler.

Definition post_api_magang : Request -> World -> Response * World :=
  route [validateInternshipForm; validateInternshipFiles] magangHandler.

End Pipeline.

(** ** The two services *)

Inductive Service := Research | Internship.

Definition requiredFields (s : Service) : list string :=
  match s with
  | Research => researchRequiredFields
  | Internship => internshipRequiredFields
  end.

Definition requiredFiles (s : Service) : list string :=
  match s with
  | Research => researchRequiredFiles
  | Internship => internshipRequiredFiles
  end.

(** The record's URL fields, in the order of [requiredFiles]. *)
Definition urlFields (s : Service) : list string :=
  match s with
  | Research => [ "suratPengantarUrl"; "proposalUrl"; "ktpUrl" ]
  | Internship => [ "suratPermohonanUrl"; "proposalUrl"; "ktpUrl" ]
  end.

Definition collection (s : Service) : string :=
  match s with
  | Research => penelitianData
  | Internship => magangData
  end.

Definition validateForm (s : Service) : Request -> Middleware :=
  match s with
  | Research => validateResearchForm
  | Internship => validateInternshipForm
  end.

Definition validateFiles (s : Service) : Request -> Middleware :=
  match s with
  | Research => validateResearchFiles
  | Internship => validateInternshipFiles
  end.

Definition handler `{Platform} (s : Service)
  : Request -> World -> Response * World :=
  match s with
  | Research => penelitianHandler
  | Internship => magangHandler
  end.

(** The route a submission for service [s] is posted to. *)
Definition submit `{Platform} (s : Service)
  : Request -> World -> Response * World :=
  match s with
  | Research => post_api_penelitian
  | Internship => post_api_magang
  end.

(** ** The vocabulary of the specification *)

(** A field is missing when it is absent or the empty string. *)
Definition missing (req : Request) (k : string) : Prop :=
  body req !! k = None \/ body req !! k = Some EmptyString.

Definition supplied (req : Request) (k : string) : Prop :=
  exists v, body req !! k = Some v /\ v <> EmptyString.

Definition allowed (mt : string) : Prop :=
  mt = "application/pdf" \/ mt = "image/jpeg" \/ mt = "image/png".

(** A slot is missing when it is absent or an empty array. *)
Definition missingSlot (req : Request) (slot : string) : Prop :=
  files req !! slot = None \/ files req !! slot = Some [].

(** The file that stands for a slot is the first of its array. *)
Definition holds (req : Request) (slot : string) (f : File) : Prop :=
  exists rest, files req !! slot = Some (f :: rest).

Definition passes (req : Request) (slot : string) : Prop :=
  exists f, holds req slot f /\ allowed (mimetype f).

Definition wrongType (req : Request) (slot : string) : Prop :=
  exists f, holds req slot f /\ ~ allowed (mimetype f).

Definition failsSlot (req : Request) (slot : string) : Prop :=
  missingSlot req slot \/ wrongType req slot.

(** The events by which an upload or the append reports failure. *)
Definition isFailure (e : Event) : bool :=
  match e with
  | StreamFailed _ _ | AddRejected _ _ => true
  | _ => false
  end.

(** The names of the streams created, and of those finished, in order. *)
Definition created (evs : list Event) : list string :=
  omap (fun e => match e with
                 | WriteStreamCreated name _ => Some name
                 | _ => None
                 end) evs.

Definition finished (evs : list Event) : list string :=
  omap (fun e => match e with
                 | StreamFinished name => Some name
                 | _ => None
                 end) evs.

(** The events up to the first call of [add], if there is one. *)
Fixpoint beforeAdd (evs : list Event) : option (list Event) :=
  match evs with
  | [] => None
  | AddCalled _ _ :: _ => Some []
  | e :: rest => cons e <$> beforeAdd rest
  end.

(** What a trace leaves pending: nothing, the write of an object, or an
    [add]. *)
Inductive Pending :=
| Idle
| Writing (name : string)
| Appending.

(** A trace is sequential from [p] when no stream is created and no [add]
    is called while an operation is pending, every stream event belongs to
    the pending write, and nothing is pending at its end. *)
Fixpoint sequentialFrom (p : Pending) (evs : list Event) : bool :=
  match evs with
  | [] => match p with Idle => true | _ => false end
  | e :: rest =>
      match e, p with
      | UuidDrawn _, Idle => sequentialFrom Idle rest
      | ConsoleError _ _, Idle => sequentialFrom Idle rest
      | WriteStreamCreated name _, Idle => sequentialFrom (Writing name) rest
      | StreamEnded name _, Writing pending =>
          String.eqb name pending && sequentialFrom (Writing pending) rest
      | StreamFinished name, Writing pending =>
          String.eqb name pending && sequentialFrom Idle rest
      | StreamFailed name _, Writing pending =>
          String.eqb name pending && sequentialFrom Idle rest
      | AddCalled _ _, Idle => sequentialFrom Appending rest
      | AddResolved _, Appending => sequentialFrom Idle rest
      | AddRejected _ _, Appending => sequentialFrom Idle rest
      | _, _ => false
      end
  end.

(** *** What a run of a handler leaves behind *)

Section Runs.

Context `{Platform}.

(** The object written for file [f] when [n] identifiers have been drawn
    before. *)
Definition objectFor (n : nat) (f : File) : Blob :=
  mkBlob (uuidv4 n +:+ "_" +:+ originalname f) (mimetype f) (buffer f).

Definition urlFor (n : nat) (f : File) : string :=
  "https://firebasestorage.googleapis.com/v0/b/" +:+ bucket_name
    +:+ "/o/" +:+ encodeURIComponent (blob_name (objectFor n f))
    +:+ "?alt=media".

(** The events of one upload: how it begins, and its two endings. *)
Definition uploadBegun (n : nat) (f : File) : list Event :=
  [ UuidDrawn (uuidv4 n);
    WriteStreamCreated (blob_name (objectFor n f)) (mimetype f);
    StreamEnded (blob_name (objectFor n f)) (buffer f) ].

Definition uploadDone (n : nat) (f : File) : list Event :=
  uploadBegun n f ++ [ StreamFinished (blob_name (objectFor n f)) ].

Definition uploadLost (n : nat) (f : File) (err : Error) : list Event :=
  uploadBegun n f
  ++ [ StreamFailed (blob_name (objectFor n f)) err;
       ConsoleError "Blob stream error:" err ].

(** The document a handler hands to [add]: the required fields as read
    from [req.body], the three URL fields, and the timestamp sentinel. *)
Definition record (s : Service) (req : Request) (urls : list DocValue)
  : gmap string DocValue :=
  list_to_map
    (((fun k => (k, field req k)) <$> requiredFields s)
     ++ zip (urlFields s) urls
     ++ [ ("timestamp", DServerTimestamp) ]).

(** The runs of the handler of service [s] on a request whose three slots
    hold [f1], [f2] and [f3], started in world [w]: the answer and the
    world it ends in, by the step at which the run stops. *)
Inductive Run (s : Service) (req : Request) (f1 f2 f3 : File) (w : World)
  : Response -> World -> Prop :=
| run_lost_first err w' :
    storage w' = storage w ->
    firestore w' = firestore w ->
    trace w' = trace w ++ uploadLost (uuids_drawn w) f1 err
               ++ [ ConsoleError EmptyString err ] ->
    Run s req f1 f2 f3 w failed w'
| run_lost_second err w' :
    storage w' = storage w ++ [ objectFor (uuids_drawn w) f1 ] ->
    firestore w' = firestore w ->
    trace w' = trace w ++ uploadDone (uuids_drawn w) f1
               ++ uploadLost (1 + uuids_drawn w) f2 err
               ++ [ ConsoleError EmptyString err ] ->
    Run s req f1 f2 f3 w failed w'
| run_lost_third err w' :
    storage w' = storage w ++ [ objectFor (uuids_drawn w) f1;
                                objectFor (1 + uuids_drawn w) f2 ] ->
    firestore w' = firestore w ->
    trace w' = trace w ++ uploadDone (uuids_drawn w) f1
               ++ uploadDone (1 + uuids_drawn w) f2
               ++ uploadLost (2 + uuids_drawn w) f3 err
               ++ [ ConsoleError EmptyString err ] ->
    Run s req f1 f2 f3 w failed w'
| run_rejected err w' doc :
    doc = record s req [ DString (urlFor (uuids_drawn w) f1);
                         DString (urlFor (1 + uuids_drawn w) f2);
                         DString (urlFor (2 + uuids_drawn w) f3) ] ->
    storage w' = storage w ++ [ objectFor (uuids_drawn w) f1;
                                objectFor (1 + uuids_drawn w) f2;
                                objectFor (2 + uuids_drawn w) f3 ] ->
    firestore w' = firestore w ->
    trace w' = trace w ++ uploadDone (uuids_drawn w) f1
               ++ uploadDone (1 + uuids_drawn w) f2
               ++ uploadDone (2 + uuids_drawn w) f3
               ++ [ AddCalled (collection s) doc;
                    AddRejected (collection s) err;
                    ConsoleError EmptyString err ] ->
    Run s req f1 f2 f3 w failed w'
| run_saved w' doc :
    doc = record s req [ DString (urlFor (uuids_drawn w) f1);
                         DString (urlFor (1 + uuids_drawn w) f2);
                         DString (urlFor (2 + uuids_drawn w) f3) ] ->
    storage w' = storage w ++ [ objectFor (uuids_drawn w) f1;
                                objectFor (1 + uuids_drawn w) f2;
                                objectFor (2 + uuids_drawn w) f3 ] ->
    firestore w'
    = <[ collection s := documents (collection s) w
                         ++ [ commit (now w) <$> doc ] ]> (firestore w) ->
    trace w' = trace w ++ uploadDone (uuids_drawn w) f1
               ++ uploadDone (1 + uuids_drawn w) f2
               ++ uploadDone (2 + uuids_drawn w) f3
               ++ [ AddCalled (collection s) doc;
                    AddResolved (collection s) ] ->
    Run s req f1 f2 f3 w saved w'.

End Runs.

(** File signatures: [%PDF], the JPEG start-of-image marker, the PNG
    signature. *)
Fixpoint startsWith (magic data : list byte) : bool :=
  match magic, data with
  | [], _ => true
  | m :: magic', d :: data' => Byte.eqb m d && startsWith magic' data'
  | _ :: _, [] => false
  end.

Definition looksLikePdf : list byte -> bool :=
  startsWith [x25; x50; x44; x46].
Definition looksLikeJpeg : list byte -> bool :=
  startsWith [xff; xd8; xff].
Definition looksLikePng : list byte -> bool :=
  startsWith [x89; x50; x4e; x47; x0d; x0a; x1a; x0a].

(** The same request with every file's bytes replaced. *)
Definition withBytes (g : File -> list byte) (req : Request) : Request :=
  mkRequest (body req)
    (fmap (M := list) (fun f => mkFile (originalname f) (mimetype f) (g f))
       <$> files req).

(** ** Sample submissions and platforms *)

Module Sample.

Definition pdfBytes : list byte := [x25; x50; x44; x46; x2d; x31; x2e; x34].

(** The first bytes of a Windows executable. *)
Definition exeBytes : list byte := [x4d; x5a; x90; x00; x03].

Definition surat : File := mkFile "surat.pdf" "application/pdf" pdfBytes.
Definition proposal : File := mkFile "proposal.pdf" "application/pdf" pdfBytes.
Definition ktp : File := mkFile "ktp.pdf" "application/pdf" pdfBytes.
Definition program : File :=
  mkFile "setup.exe" "application/x-msdownload" exeBytes.
Definition disguised : File :=
  mkFile "proposal.pdf" "application/pdf" exeBytes.

(** The fourteen research fields that every revision requires. *)
Definition fourteen : list (string * string) :=
  [ ("name", "Izin Penelitian"); ("researcherName", "Siti");
    ("address", "Jl. Merdeka 1"); ("inputValue", "081234");
    ("institution", "Universitas A"); ("occupation", "Mahasiswa");
    ("judulPenelitian", "Kualitas Air"); ("researchField", "Lingkungan");
    ("tujuanPenelitian", "Skripsi"); ("supervisorName", "Dr. Budi");
    ("teamMembers", "Siti, Rina"); ("statusPenelitian", "Baru");
    ("researchPeriod", "3 bulan"); ("researchLocation", "Kota B") ].

Definition researchFiles : gmap string (list File) :=
  list_to_map [ ("suratPengantarFile", [surat]);
                ("proposalFile", [proposal]); ("ktpFile", [ktp]) ].

(** A research submission without [letterNumber]. *)
Definition research14 : Request :=
  mkRequest (list_to_map fourteen) researchFiles.

(** A complete research submission; it also carries a [timestamp] field
    of the client's own. *)
Definition research15 : Request :=
  mkRequest
    (list_to_map (("letterNumber", "070/123") :: ("timestamp", "1999")
                  :: fourteen))
    researchFiles.

(** The same with an executable, declared as such, in the proposal slot. *)
Definition researchExe : Request :=
  mkRequest (body research15)
    (<["proposalFile" := [program]]> researchFiles).

(** The same with an executable declared as a PDF. *)
Definition researchDisguised : Request :=
  mkRequest (body research15)
    (<["proposalFile" := [disguised]]> researchFiles).

(** The same without the identity-card slot. *)
Definition researchNoKtp : Request :=
  mkRequest (body research15) (delete "ktpFile" researchFiles).

Definition internshipFields : list (string * string) :=
  [ ("letterNumber", "070/456"); ("applicantsName", "Rina");
    ("address", "Jl. Sudirman 2"); ("inputValue", "089876");
    ("institution", "Politeknik C"); ("occupation", "Mahasiswa");
    ("judul", "Magang Arsip"); ("supervisorName", "Ir. Wati");
    ("tujuanPermohonan", "Praktik kerja"); ("teamMembers", "Rina");
    ("statusPermohonan", "Baru"); ("period", "2 bulan");
    ("location", "Dinas D") ].

Definition internshipFilesMap : gmap string (list File) :=
  list_to_map [ ("suratPermohonanFile", [surat]);
                ("proposalFile", [proposal]); ("ktpFile", [ktp]) ].

Definition internship : Request :=
  mkRequest (list_to_map internshipFields) internshipFilesMap.

(** An internship submission whose [supervisorName] is left empty. *)
Definition internshipNoSupervisor : Request :=
  mkRequest (<["supervisorName" := EmptyString]> (body internship))
            internshipFilesMap.

Definition startup : World := mkWorld 0 [] ∅ 1730505600%Z [].

Definition ids (n : nat) : string :=
  "id" +:+ NilZero.string_of_uint (Nat.to_uint n).

(** Storage and Firestore never fail. *)
Definition reliable : Platform :=
  {| uuidv4 := ids;
     bucket_name := "govservice-2024.appspot.com";
     stream_fault := fun _ _ => None;
     add_fault := fun _ _ _ => None |}.

(** The second blob written after start-up fails. *)
Definition secondWriteFails : Platform :=
  {| uuidv4 := ids;
     bucket_name := "govservice-2024.appspot.com";
     stream_fault := fun w _ =>
       if Nat.eqb (length (storage w)) 1 then Some "ECONNRESET" else None;
     add_fault := fun _ _ _ => None |}.

(** Firestore rejects every write. *)
Definition firestoreDown : Platform :=
  {| uuidv4 := ids;
     bucket_name := "govservice-2024.appspot.com";
     stream_fault := fun _ _ => None;
     add_fault := fun _ _ _ => Some "UNAVAILABLE" |}.

End Sample.

(** ** The routes as express runs them *)

(** The definitions above are the pipeline on a submission that [multer]
    has parsed and that carries its fields as strings.  This module is the
    same code on whatever can reach a route: a body that is not a
    multipart form, for which [multer] leaves [req.files] undefined; a
    form that [upload.fields] refuses; fields that are not strings.  An
    exception that leaves a middleware, and an error that a middleware
    hands to [next], are answered by express's own error handler with its
    error page and status 500: this file installs no error handler. *)
Module Express.

(** [req] as the middlewares and the handler of a route see it. *)
Record Req := mkReq {
  body : gmap string JsValue;
  files : option (gmap string (list File))
}.

(** A POST as it reaches a route.  For a multipart form: the object that
    [multer] builds from the text parts, the file parts that carry a file
    name (field name and file, in the order sent), and the error, if there
    is one, that the parser or a limit other than the count of files runs
    into ([limits.fileSize], a part that is cut short).  For any other
    body: the object that [body-parser] left in [req.body]. *)
Record Post := mkPost {
  multipart : bool;
  parsedBody : gmap string JsValue;
  fileParts : list (string * File);
  parseFault : option Error
}.

(** The answer to a request: the JSON [{ message }] of the route, or the
    error page of express. *)
Inductive Reply :=
| Json (r : Response)
| ErrorPage (status : nat) (err : Error).

(** What [upload.fields] does with a request: it hands an error to
    [next], or it calls [next()] and leaves [req] behind. *)
Inductive Arrival :=
| Refused (err : Error)
| Arrived (req : Req).

(** What a file validator does: it calls [next()], it answers, or it
    throws. *)
Inductive Checked :=
| Passed
| Answered (r : Response)
| Threw (err : Error).

Definition unexpectedField : Error := "MulterError: Unexpected field".

Definition cannotRead (property : string) : Error :=
  "TypeError: Cannot read properties of undefined (reading '"
    +:+ property +:+ "')".

(** The file filter of [upload.fields]: a file is accepted while its field
    name has files left, and is appended to the array of that name. *)
Fixpoint acceptFiles (filesLeft : gmap string nat)
    (parts : list (string * File)) (accepted : gmap string (list File))
  : Error + gmap string (list File) :=
  match parts with
  | [] => inr accepted
  | (fieldname, file) :: rest =>
      match filesLeft !! fieldname with
      | Some (S n) =>
          acceptFiles (<[fieldname := n]> filesLeft) rest
            (<[fieldname := default [] (accepted !! fieldname) ++ [file]]>
               accepted)
      | _ => inl unexpectedField
      end
  end.

(** [upload.fields(fields)]: a body that is not multipart is passed on
    untouched. *)
Definition uploadFields (fields : list (string * nat)) (post : Post)
  : Arrival :=
  if multipart post then
    match parseFault post with
    | Some err => Refused err
    | None =>
        match acceptFiles (list_to_map fields) (fileParts post) ∅ with
        | inl err => Refused err
        | inr accepted => Arrived (mkReq (parsedBody post) (Some accepted))
        end
    end
  else Arrived (mkReq (parsedBody post) None).

(** JavaScript's truthiness. *)
Definition truthy (v : JsValue) : bool :=
  match v with
  | JsString s => negb (String.eqb s EmptyString)
  | JsNumber NaN => false
  | JsNumber (Infinity _) => true
  | JsNumber (Finite _ mantissa _) => negb (N.eqb mantissa 0)
  | JsBool b => b
  | JsNull => false
  | JsArray _ => true
  | JsObject _ => true
  end.

(** [!req.body[field]]. *)
Definition falsy (v : option JsValue) : bool :=
  match v with
  | None => true
  | Some v => negb (truthy v)
  end.

Fixpoint requireFields (requiredFields : list string) (req : Req)
  : Middleware :=
  match requiredFields with
  | [] => Next
  | field :: rest =>
      if falsy (body req !! field)
      then Respond (mkResponse 400 (field +:+ " is required"))
      else requireFields rest req
  end.

Definition validateResearchForm : Req -> Middleware :=
  requireFields researchRequiredFields.

Definition validateInternshipForm : Req -> Middleware :=
  requireFields internshipRequiredFields.

(** The loop of the file validators: [req.files[file]] throws when
    [req.files] is undefined. *)
Fixpoint requireFiles (requiredFiles : list string) (req : Req) : Checked :=
  match requiredFiles with
  | [] => Passed
  | file :: rest =>
      match files req with
      | None => Threw (cannotRead file)
      | Some parsed =>
          match parsed !! file with
          | None | Some [] =>
              Answered (mkResponse 400 ("File " +:+ file +:+ " is required"))
          | Some (f :: _) =>
              if includes allowedMimeTypes (mimetype f)
              then requireFiles rest req
              else Answered (mkResponse 400
                     ("File " +:+ file +:+ " must be a PDF, JPEG, or PNG"))
          end
      end
  end.

Definition validateResearchFiles : Req -> Checked :=
  requireFiles researchRequiredFiles.

Definition validateInternshipFiles : Req -> Checked :=
  requireFiles internshipRequiredFiles.

(** A name bound by [const { ..., k, ... } = req.body]. *)
Definition field (req : Req) (k : string) : DocValue :=
  match body req !! k with
  | None => DUndefined
  | Some (JsString s) => DString s
  | Some JsNull => DNull
  | Some v => DJs v
  end.

Section Handlers.

Context `{Platform}.

(** [req.files.slot ? await uploadFileToFirebase(req.files.slot[0]) : null];
    reading [req.files.slot] throws, inside the handler's [try], when
    [req.files] is undefined. *)
Definition uploadSlot (req : Req) (slot : string) : Async DocValue :=
  match files req with
  | None => reject (cannotRead slot)
  | Some parsed =>
      match parsed !! slot with
      | Some fs => url ← uploadFileToFirebase (head fs); mret (DString url)
      | None => mret DNull
      end
  end.

Definition penelitianHandler (req : Req) : World -> Response * World :=
  answer (
    suratPengantarUrl ← uploadSlot req "suratPengantarFile";
    proposalUrl ← uploadSlot req "proposalFile";
    ktpUrl ← uploadSlot req "ktpFile";
    add penelitianData (list_to_map [
      ("letterNumber", field req "letterNumber");
      ("name", field req "name");
      ("researcherName", field req "researcherName");
      ("address", field req "address");
      ("inputValue", field req "inputValue");
      ("institution", field req "institution");
      ("occupation", field req "occupation");
      ("judulPenelitian", field req "judulPenelitian");
      ("researchField", field req "researchField");
      ("tujuanPenelitian", field req "tujuanPenelitian");
      ("supervisorName", field req "supervisorName");
      ("teamMembers", field req "teamMembers");
      ("statusPenelitian", field req "statusPenelitian");
      ("researchPeriod", field req "researchPeriod");
      ("researchLocation", field req "researchLocation");
      ("suratPengantarUrl", suratPengantarUrl);
      ("proposalUrl", proposalUrl);
      ("ktpUrl", ktpUrl);
      ("timestamp", DServerTimestamp) ])).

Definition magangHandler (req : Req) : World -> Response * World :=
  answer (
    suratPermohonanUrl ← uploadSlot req "suratPermohonanFile";
    proposalUrl ← uploadSlot req "proposalFile";
    ktpUrl ← uploadSlot req "ktpFile";
    add magangData (list_to_map [
      ("letterNumber", field req "letterNumber");
      ("applicantsName", field req "applicantsName");
      ("address", field req "address");
      ("inputValue", field req "inputValue");
      ("institution", field req "institution");
      ("occupation", field req "occupation");
      ("judul", field req "judul");
      ("supervisorName", field req "supervisorName");
      ("tujuanPermohonan", field req "tujuanPermohonan");
      ("teamMembers", field req "teamMembers");
      ("statusPermohonan", field req "statusPermohonan");
      ("period", field req "period");
      ("location", field req "location");
      ("suratPermohonanUrl", suratPermohonanUrl);
      ("proposalUrl", proposalUrl);
      ("ktpUrl", ktpUrl);
      ("timestamp", DServerTimestamp) ])).

(** A route: [upload.fields], the field validator, the file validator, the
    handler. *)
Definition route (validateForm : Req -> Middleware)
    (validateFiles : Req -> Checked)
    (handler : Req -> World -> Response * World)
    (arrival : Arrival) (w : World) : Reply * World :=
  match arrival with
  | Refused err => (ErrorPage 500 err, w)
  | Arrived req =>
      match validateForm req with
      | Respond r => (Json r, w)
      | Next =>
          match validateFiles req with
          | Answered r => (Json r, w)
          | Threw err => (ErrorPage 500 err, w)
          | Passed => let (r, w') := handler req w in (Json r, w')
          end
      end
  end.

Definition post_api_penelitian (post : Post) : World -> Reply * World :=
  route validateResearchForm validateResearchFiles penelitianHandler
    (uploadFields [ ("suratPengantarFile", 1); ("proposalFile", 1);
                    ("ktpFile", 1) ] post).

Definition post_api_magang (post : Post) : World -> Reply * World :=
  route validateInternshipForm validateInternshipFiles magangHandler
    (uploadFields [ ("suratPermohonanFile", 1); ("proposalFile", 1);
                    ("ktpFile", 1) ] post).

End Handlers.

(** *** By service *)

Definition fieldsOf (s : Service) : list (string * nat) :=
  match s with
  | Research => [ ("suratPengantarFile", 1); ("proposalFile", 1);
                  ("ktpFile", 1) ]
  | Internship => [ ("suratPermohonanFile", 1); ("proposalFile", 1);
                    ("ktpFile", 1) ]
  end.

Definition validateForm (s : Service) : Req -> Middleware :=
  match s with
  | Research => validateResearchForm
  | Internship => validateInternshipForm
  end.

Definition validateFiles (s : Service) : Req -> Checked :=
  match s with
  | Research => validateResearchFiles
  | Internship => validateInternshipFiles
  end.

Definition handler `{Platform} (s : Service)
  : Req -> World -> Response * World :=
  match s with
  | Research => penelitianHandler
  | Internship => magangHandler
  end.

(** The chain of a route after [upload.fields]. *)
Definition serve `{Platform} (s : Service)
  : Arrival -> World -> Reply * World :=
  route (validateForm s) (validateFiles s) (handler s).

Definition submit `{Platform} (s : Service) : Post -> World -> Reply * World :=
  match s with
  | Research => post_api_penelitian
  | Internship => post_api_magang
  end.

(** *** Vocabulary *)

(** The slot holds a file whose declared type is allowed. *)
Definition slotPasses (parsed : gmap string (list File)) (slot : string)
  : Prop :=
  exists f rest, parsed !! slot = Some (f :: rest) /\ allowed (mimetype f).

(** The slot is absent, or an empty array, or holds a file whose declared
    type is not allowed. *)
Definition slotFails (parsed : gmap string (list File)) (slot : string)
  : Prop :=
  parsed !! slot = None
  \/ parsed !! slot = Some []
  \/ exists f rest, parsed !! slot = Some (f :: rest)
                    /\ ~ allowed (mimetype f).

(** The document a handler hands to [add]. *)
Definition record (s : Service) (req : Req) (urls : list DocValue)
  : gmap string DocValue :=
  list_to_map
    (((fun k => (k, field req k)) <$> requiredFields s)
     ++ zip (urlFields s) urls
     ++ [ ("timestamp", DServerTimestamp) ]).

End Express.

(** A parsed submission of string fields, as a [req]. *)
Definition plain (req : Request) : Express.Req :=
  Express.mkReq (JsString <$> body req) (Some (files req)).

(** An answer of the pipeline on a parsed submission, as a reply. *)
Definition json (run : Response * World) : Express.Reply * World :=
  (Express.Json (fst run), snd run).

(** *** Sample posts *)

Module Posts.

Definition fifteen : gmap string JsValue :=
  JsString <$> list_to_map (("letterNumber", "070/123") :: Sample.fourteen).

Definition threeFiles : list (string * File) :=
  [ ("suratPengantarFile", Sample.surat); ("proposalFile", Sample.proposal);
    ("ktpFile", Sample.ktp) ].

(** A complete research form. *)
Definition research : Express.Post :=
  Express.mkPost true fifteen threeFiles None.

(** The same fields sent as JSON: not a multipart body, no files. *)
Definition researchAsJson : Express.Post :=
  Express.mkPost false fifteen [] None.

(** A form without [letterNumber] that carries a file under a field name
    which the route does not expect. *)
Definition strayFile : Express.Post :=
  Express.mkPost true (JsString <$> list_to_map Sample.fourteen)
    (("foto", Sample.ktp) :: threeFiles) None.

(** A form without [letterNumber] and without files. *)
Definition noLetterNumber : Express.Post :=
  Express.mkPost true (JsString <$> list_to_map Sample.fourteen) [] None.

(** A complete form in which [letterNumber] was sent twice. *)
Definition repeatedField : Express.Post :=
  Express.mkPost true
    (<[ "letterNumber" := JsArray [ JsString "070/123"; JsString "070/124" ] ]>
       fifteen)
    threeFiles None.

(** The internship fields sent as JSON. *)
Definition internshipAsJson : Express.Post :=
  Express.mkPost false (JsString <$> list_to_map Sample.internshipFields)
    [] None.

(** A complete form with a program in the proposal slot. *)
Definition exeFiles : list (string * File) :=
  [ ("suratPengantarFile", Sample.surat); ("proposalFile", Sample.program);
    ("ktpFile", Sample.ktp) ].

Definition exeProposal : Express.Post :=
  Express.mkPost true fifteen exeFiles None.

(** A complete form with a second file in the proposal slot. *)
Definition secondProposal : Express.Post :=
  Express.mkPost true fifteen
    (threeFiles ++ [ ("proposalFile", Sample.disguised) ]) None.

End Posts.

(** ** Start-up: the service account's private key *)

(** [process.env.FIREBASE_PRIVATE_KEY.replace(/\\n/g, '\n')]: scanning
    from the left, every backslash that is followed by [n] is replaced,
    together with that [n], by one line feed. *)
Fixpoint replaceEscapedNewlines (s : string) : string :=
  match s with
  | EmptyString => EmptyString
  | String c rest =>
      match rest with
      | EmptyString => String c EmptyString
      | String d rest' =>
          if Ascii.eqb c "092" && Ascii.eqb d "n"
          then String "010" (replaceEscapedNewlines rest')
          else String c (replaceEscapedNewlines rest)
      end
  end.

(** Whether a backslash immediately followed by [n] occurs in [s]. *)
Fixpoint hasEscapedNewline (s : string) : bool :=
  match s with
  | EmptyString => false
  | String c rest =>
      match rest with
      | EmptyString => false
      | String d _ =>
          (Ascii.eqb c "092" && Ascii.eqb d "n") || hasEscapedNewline rest
      end
  end.

(** ** Reading an encoded name back *)

Definition hexValue (c : ascii) : nat :=
  let n := nat_of_ascii c in
  if (n <? 58)%nat then n - 48 else n - 55.

Definition percentByte (h l : ascii) : nat := 16 * hexValue h + hexValue l.

(** The first character that an encoded string stands for, and what is
    left of the string after it: a character other than [%] stands for
    itself; [%XY] stands for the byte [XY] when that is below 128, and
    otherwise opens a two-byte sequence completed by a second escape. *)
Definition decodeHead (s : string) : option (ascii * string) :=
  match s with
  | EmptyString => None
  | String c t =>
      if Ascii.eqb c "%" then
        match t with
        | String h (String l t1) =>
            let b := percentByte h l in
            if (b <? 128)%nat then Some (ascii_of_nat b, t1)
            else
              match t1 with
              | String _ (String h2 (String l2 t2)) =>
                  Some (ascii_of_nat
                          ((b - 192) * 64 + (percentByte h2 l2 - 128)), t2)
              | _ => None
              end
        | _ => None
        end
      else Some (c, t)
  end.

(** Whether every character of [s] satisfies [p]. *)
Fixpoint allChars (p : ascii -> bool) (s : string) : bool :=
  match s with
  | EmptyString => true
  | String c rest => p c && allChars p rest
  end.

(** The characters an encoded name is made of: the unreserved ones and
    the percent sign. *)
Definition urlSafe (c : ascii) : bool :=
  unreserved (nat_of_ascii c) || Ascii.eqb c "%".

(** * Properties *)

(** ** The validators *)

Lemma falsy_true_iff (req : Request) (k : string) :
  falsy (body req !! k) = true <-> missing req k.
Proof.
  unfold falsy, missing. destruct (body req !! k) as [v|].
  - rewrite String.eqb_eq. split.
    + intros ->. by right.
    + intros [?|[= ->]]; done.
  - split; [by left | done].
Qed.

Lemma falsy_false_iff (req : Request) (k : string) :
  falsy (body req !! k) = false <-> supplied req k.
Proof.
  unfold falsy, supplied. destruct (body req !! k) as [v|].
  - rewrite String.eqb_neq. split.
    + intros Hv. by exists v.
    + by intros (v' & [= <-] & Hv).
  - split; [done | by intros (v & ? & _)].
Qed.

Lemma supplied_or_missing (req : Request) (k : string) :
  supplied req k \/ missing req k.
Proof.
  destruct (falsy (body req !! k)) eqn:E.
  - right. by apply falsy_true_iff.
  - left. by apply falsy_false_iff.
Qed.

Lemma supplied_not_missing (req : Request) (k : string) :
  supplied req k -> ~ missing req k.
Proof.
  intros Hs%falsy_false_iff Hm%falsy_true_iff. congruence.
Qed.

Lemma requireFields_Next (fields : list string) (req : Request) :
  requireFields fields req = Next <-> Forall (supplied req) fields.
Proof.
  induction fields as [|k fields IH]; simpl.
  - split; [constructor | done].
  - rewrite Forall_cons, <- IH, <- falsy_false_iff.
    destruct (falsy (body req !! k)); [| tauto].
    split; [done | by intros [? _]].
Qed.

Lemma requireFields_first (pre post : list string) (k : string)
    (req : Request) :
  Forall (supplied req) pre -> missing req k ->
  requireFields (pre ++ k :: post) req
  = Respond (mkResponse 400 (k +:+ " is required")).
Proof.
  intros Hpre Hk. induction Hpre as [|k' pre Hk' _ IH]; simpl.
  - apply falsy_true_iff in Hk. by rewrite Hk.
  - apply falsy_false_iff in Hk'. by rewrite Hk'.
Qed.


(** A list with an offender has a first one. *)
Lemma first_offender {A} (good bad : A -> Prop) (l : list A) :
  (forall x, good x \/ bad x) ->
  Exists bad l ->
  exists pre x post, l = pre ++ x :: post /\ Forall good pre /\ bad x.
Proof.
  intros Hdec Hex. induction Hex as [x l Hx | x l _ IH].
  - by exists [], x, l.
  - destruct (Hdec x) as [Hg | Hb]; [| by exists [], x, l].
    destruct IH as (pre & y & post & -> & Hpre & Hy).
    exists (x :: pre), y, post.
    split; [done | split; [by constructor | done]].
Qed.

Lemma includes_allowed (mt : string) :
  includes allowedMimeTypes mt = true <-> allowed mt.
Proof.
  unfold includes, allowed, allowedMimeTypes. simpl.
  rewrite !orb_true_iff, !String.eqb_eq. split.
  - intros [? | [? | [? | ?]]]; auto. done.
  - intros [? | [? | ?]]; auto.
Qed.

Lemma passes_or_fails (req : Request) (slot : string) :
  passes req slot \/ failsSlot req slot.
Proof.
  unfold passes, failsSlot, missingSlot, wrongType, holds.
  destruct (files req !! slot) as [[|f rest]|] eqn:E; [by auto | | by auto].
  destruct (includes allowedMimeTypes (mimetype f)) eqn:Hm.
  - apply includes_allowed in Hm. left. exists f. eauto.
  - right. right. exists f. split; [eauto |].
    intros Ha%includes_allowed. congruence.
Qed.

Lemma passes_head (req : Request) (slot : string) (f : File)
    (rest : list File) :
  files req !! slot = Some (f :: rest) ->
  passes req slot <-> includes allowedMimeTypes (mimetype f) = true.
Proof.
  intros Hf. rewrite includes_allowed. unfold passes, holds. split.
  - intros (f' & [rest' Hf'] & Ha). rewrite Hf in Hf'.
    by injection Hf' as <- _.
  - intros Ha. exists f. eauto.
Qed.

Lemma requireFiles_Next (slots : list string) (req : Request) :
  requireFiles slots req = Next <-> Forall (passes req) slots.
Proof.
  induction slots as [|slot slots IH]; simpl.
  - split; [constructor | done].
  - rewrite Forall_cons, <- IH.
    destruct (files req !! slot) as [[|f rest]|] eqn:E.
    + split; [done |]. intros [(f & [rest Hf] & _) _]. congruence.
    + rewrite (passes_head req slot f rest E).
      destruct (includes allowedMimeTypes (mimetype f)).
      * split; [intros ?; by split | by intros [_ ?]].
      * split; [done | by intros [? _]].
    + split; [done |]. intros [(f & [rest Hf] & _) _]. congruence.
Qed.

Lemma requireFiles_skip (pre rest : list string) (req : Request) :
  Forall (passes req) pre ->
  requireFiles (pre ++ rest) req = requireFiles rest req.
Proof.
  induction 1 as [|slot pre (f & [tl Hf] & Ha%includes_allowed) _ IH];
    simpl; [done |].
  by rewrite Hf, Ha.
Qed.

Lemma requireFiles_missing (pre post : list string) (slot : string)
    (req : Request) :
  Forall (passes req) pre -> missingSlot req slot ->
  requireFiles (pre ++ slot :: post) req
  = Respond (mkResponse 400 ("File " +:+ slot +:+ " is required")).
Proof.
  intros Hpre Hm. rewrite requireFiles_skip by done. simpl.
  by destruct Hm as [-> | ->].
Qed.

Lemma requireFiles_wrongType (pre post : list string) (slot : string)
    (req : Request) :
  Forall (passes req) pre -> wrongType req slot ->
  requireFiles (pre ++ slot :: post) req
  = Respond (mkResponse 400
      ("File " +:+ slot +:+ " must be a PDF, JPEG, or PNG")).
Proof.
  intros Hpre (f & [rest Hf] & Hna). rewrite requireFiles_skip by done.
  simpl. rewrite Hf.
  destruct (includes allowedMimeTypes (mimetype f)) eqn:Hm; [| done].
  by apply includes_allowed in Hm.
Qed.

(** The file validator reads [req.files] at the slots it visits and
    nowhere else. *)
Lemma requireFiles_visits (pre post : list string) (slot : string)
    (req req' : Request) :
  Forall (passes req) pre -> failsSlot req slot ->
  (forall k, k ∈ pre ++ [slot] -> files req' !! k = files req !! k) ->
  requireFiles (pre ++ slot :: post) req'
  = requireFiles (pre ++ slot :: post) req.
Proof.
  intros Hpre Hslot Hsame.
  assert (Hpre' : Forall (passes req') pre).
  { apply Forall_forall. intros k Hin.
    unfold passes, holds. rewrite Hsame by set_solver.
    revert k Hin. by apply Forall_forall. }
  destruct Hslot as [Hm | Hw].
  - rewrite (requireFiles_missing pre post slot req) by done.
    apply requireFiles_missing; [done |].
    unfold missingSlot. by rewrite Hsame by set_solver.
  - rewrite (requireFiles_wrongType pre post slot req) by done.
    apply requireFiles_wrongType; [done |].
    unfold wrongType, holds. by rewrite Hsame by set_solver.
Qed.

Lemma supplied_or_all_missing (req : Request) (fields : list string) :
  Forall (supplied req) fields \/ Exists (missing req) fields.
Proof.
  induction fields as [|k fields [IH | IH]].
  - left. constructor.
  - destruct (supplied_or_missing req k).
    + left. by constructor.
    + right. by constructor.
  - right. by constructor.
Qed.

Lemma passes_or_some_fails (req : Request) (slots : list string) :
  Forall (passes req) slots \/ Exists (failsSlot req) slots.
Proof.
  induction slots as [|k slots [IH | IH]].
  - left. constructor.
  - destruct (passes_or_fails req k).
    + left. by constructor.
    + right. by constructor.
  - right. by constructor.
Qed.


(** On a submission that [multer] has parsed: when some required slot
    fails (it is absent, or an empty array, or the declared type of its
    file is none of [application/pdf], [image/jpeg], [image/png]), the
    file validator of either service answers 400 for the first failing
    slot in the order of the schema: ["File <slot> is required"] if that
    slot is missing, ["File <slot> must be a PDF, JPEG, or PNG"] if its
    type is not allowed; the slots after it are not looked at.  It calls
    [next()] exactly when every required slot holds a file of an allowed
    type. *)
Theorem file_validator_first_failure (s : Service) (req : Request) :
  (Exists (failsSlot req) (requiredFiles s) ->
   exists pre slot post,
     requiredFiles s = pre ++ slot :: post
     /\ Forall (passes req) pre
     /\ (missingSlot req slot
           /\ validateFiles s req
              = Respond (mkResponse 400 ("File " +:+ slot +:+ " is required"))
         \/ wrongType req slot
           /\ validateFiles s req
              = Respond (mkResponse 400
                  ("File " +:+ slot +:+ " must be a PDF, JPEG, or PNG")))
     /\ forall req',
          (forall k, k ∈ pre ++ [slot] -> files req' !! k = files req !! k) ->
          validateFiles s req' = validateFiles s req)
  /\ (validateFiles s req = Next <-> Forall (passes req) (requiredFiles s)).
Proof.
  split.
  - intros Hex.
    destruct (first_offender (passes req) (failsSlot req) _
                (passes_or_fails req) Hex)
      as (pre & slot & post & Hsplit & Hpre & Hslot).
    exists pre, slot, post. repeat (split; [done |]).
    assert (Hv : forall r,
               validateFiles s r = requireFiles (pre ++ slot :: post) r).
    { intros r. rewrite <- Hsplit. by destruct s. }
    split.
    + rewrite Hv. destruct Hslot as [Hm | Hw].
      * left. split; [done |]. by apply requireFiles_missing.
      * right. split; [done |]. by apply requireFiles_wrongType.
    + intros req' Hsame. rewrite !Hv. by apply requireFiles_visits.
  - destruct s; apply requireFiles_Next.
Qed.

(** ** The upload helper and [add] *)

Section Properties.

Context `{Platform}.

(** One call of the helper on a file, by its two outcomes. *)
Lemma upload_spec (f : File) (w : World) :
  match uploadFileToFirebase (Some f) w with
  | (Resolved url, w') =>
      url = urlFor (uuids_drawn w) f
      /\ uuids_drawn w' = S (uuids_drawn w)
      /\ storage w' = storage w ++ [objectFor (uuids_drawn w) f]
      /\ firestore w' = firestore w
      /\ now w' = now w
      /\ trace w' = trace w ++ uploadDone (uuids_drawn w) f
  | (Rejected err, w') =>
      uuids_drawn w' = S (uuids_drawn w)
      /\ storage w' = storage w
      /\ firestore w' = firestore w
      /\ now w' = now w
      /\ trace w' = trace w ++ uploadLost (uuids_drawn w) f err
  end.
Proof.
  unfold uploadFileToFirebase, mbind, async_bind, uuid, try_catch,
    writeStream, console_error, reject, mret, async_ret.
  cbn [blob_name contentType contents].
  destruct (stream_fault _ _) as [err|]; cbn;
    unfold uploadDone, uploadLost, uploadBegun;
    rewrite <- ?app_assoc; repeat split; reflexivity.
Qed.

(** One call of [add], by its two outcomes. *)
Lemma add_spec (path : string) (doc : gmap string DocValue) (w : World) :
  match add path doc w with
  | (Resolved _, w') =>
      storage w' = storage w
      /\ firestore w'
         = <[ path := documents path w ++ [commit (now w) <$> doc] ]>
             (firestore w)
      /\ trace w' = trace w ++ [AddCalled path doc; AddResolved path]
  | (Rejected err, w') =>
      storage w' = storage w
      /\ firestore w' = firestore w
      /\ trace w' = trace w ++ [AddCalled path doc; AddRejected path err]
  end.
Proof.
  unfold add. destruct (add_fault _ _ _) as [err|]; cbn;
    rewrite <- ?app_assoc; repeat split; reflexivity.
Qed.

(** ** The handlers *)

Lemma uploadSlot_holds (req : Request) (slot : string) (f : File)
    (w : World) :
  holds req slot f ->
  uploadSlot req slot w
  = match uploadFileToFirebase (Some f) w with
    | (Resolved url, w') => (Resolved (DString url), w')
    | (Rejected err, w') => (Rejected err, w')
    end.
Proof. intros [rest Hf]. unfold uploadSlot. by rewrite Hf. Qed.

(** Run the next upload of the handler in hypothesis [E] and split on its
    outcome. *)
Ltac step_upload E :=
  match type of E with
  | context [uploadSlot ?req ?slot ?w] =>
      match goal with
      | Hslot : holds req slot ?f |- _ =>
          rewrite (uploadSlot_holds req slot f w Hslot) in E;
          let U := fresh "U" in
          pose proof (upload_spec f w) as U;
          destruct (uploadFileToFirebase (Some f) w) as [[? | ?] ?];
          destruct U as (? & ? & ? & ? & ?); try destruct_and?; subst
      end
  end.

Ltac step_add E :=
  match type of E with
  | context [add ?path ?doc ?w] =>
      let A := fresh "A" in
      pose proof (add_spec path doc w) as A;
      destruct (add path doc w) as [[? | ?] ?];
      destruct A as (? & ? & ?)
  end.

(** Replace every projection of a later world by what the steps so far
    say about it. *)
Ltac chase :=
  unfold documents in *;
  cbn [storage firestore trace now uuids_drawn emit];
  repeat match goal with
         | Heq : _ = _ |- _ => rewrite Heq; clear Heq
         end;
  rewrite <- ?app_assoc.

(** Every run of a handler on a request whose slots hold files is one of
    the five of [Run]. *)
Lemma handler_runs (s : Service) (req : Request) (f1 f2 f3 : File)
    (w w' : World) (resp : Response) :
  Forall2 (holds req) (requiredFiles s) [f1; f2; f3] ->
  handler s req w = (resp, w') ->
  Run s req f1 f2 f3 w resp w'.
Proof.
  intros Hfs E.
  destruct s; simpl in Hfs;
    apply Forall2_cons in Hfs as [H1 Hfs];
    apply Forall2_cons in Hfs as [H2 Hfs];
    apply Forall2_cons in Hfs as [H3 _];
    unfold handler, penelitianHandler, magangHandler, answer, mbind,
      async_bind, mret, async_ret in E;
    repeat step_upload E; try step_add E;
    injection E as <- <-;
    first [ solve [eapply run_lost_first; chase; reflexivity]
          | solve [eapply run_lost_second; chase; reflexivity]
          | solve [eapply run_lost_third; chase; reflexivity]
          | solve [eapply run_rejected; [reflexivity | ..];
                   chase; reflexivity]
          | solve [eapply run_saved; [reflexivity | ..];
                   chase; reflexivity] ].
Qed.

(** ** The routes *)

Lemma submit_route (s : Service) :
  submit s = route [validateForm s; validateFiles s] (handler s).
Proof. by destruct s. Qed.

Lemma submit_valid (s : Service) (req : Request) (w : World) :
  Forall (supplied req) (requiredFields s) ->
  Forall (passes req) (requiredFiles s) ->
  submit s req w = handler s req w.
Proof.
  intros Hfields Hfiles. rewrite submit_route. simpl.
  replace (validateForm s req) with Next
    by (symmetry; destruct s; by apply requireFields_Next).
  replace (validateFiles s req) with Next
    by (symmetry; destruct s; by apply requireFiles_Next).
  done.
Qed.

(** A request refused by a validator is answered by it, in the world as
    it was. *)
Lemma submit_refused (s : Service) (req : Request) (w : World) :
  Exists (missing req) (requiredFields s)
    \/ Exists (failsSlot req) (requiredFiles s) ->
  exists msg, submit s req w = (mkResponse 400 msg, w).
Proof.
  intros Hbad. rewrite submit_route. simpl.
  destruct (validateForm s req) as [|r] eqn:Eform.
  - destruct Hbad as [Hex | Hex].
    + exfalso. apply Exists_exists in Hex as (k & Hin & Hk).
      assert (Forall (supplied req) (requiredFields s)) as Hall
        by (destruct s; by apply requireFields_Next).
      eapply supplied_not_missing; [| done].
      clear Hk. revert k Hin. by apply Forall_forall.
    + destruct (first_offender (passes req) (failsSlot req) _
                  (passes_or_fails req) Hex)
        as (pre & slot & post & Hsplit & Hpre & Hslot).
      assert (validateFiles s req
              = requireFiles (pre ++ slot :: post) req) as ->
        by (rewrite <- Hsplit; by destruct s).
      destruct Hslot as [Hm | Hw].
      * rewrite requireFiles_missing by done. eauto.
      * rewrite requireFiles_wrongType by done. eauto.
  - destruct (supplied_or_all_missing req (requiredFields s))
      as [Hall | Hex].
    + exfalso. assert (validateForm s req = Next)
        by (destruct s; by apply requireFields_Next). congruence.
    + destruct (first_offender (supplied req) (missing req) _
                  (supplied_or_missing req) Hex)
        as (pre & k & post & Hsplit & Hpre & Hk).
      assert (validateForm s req
              = requireFields (pre ++ k :: post) req) as Hv
        by (rewrite <- Hsplit; by destruct s).
      rewrite requireFields_first in Hv by done.
      rewrite Eform in Hv. injection Hv as ->. eauto.
Qed.

Lemma files_held (s : Service) (req : Request) :
  Forall (passes req) (requiredFiles s) ->
  exists f1 f2 f3,
    Forall2 (holds req) (requiredFiles s) [f1; f2; f3]
    /\ Forall (fun f => allowed (mimetype f)) [f1; f2; f3].
Proof.
  intros Hs. destruct s; simpl in *;
    apply Forall_cons in Hs as [(f1 & ? & ?) Hs];
    apply Forall_cons in Hs as [(f2 & ? & ?) Hs];
    apply Forall_cons in Hs as [(f3 & ? & ?) _];
    exists f1, f2, f3; split; repeat (constructor; [done |]); constructor.
Qed.

(** Every run of a route on a valid request is one of the five of
    [Run]. *)
Lemma submit_runs (s : Service) (req : Request) (w w' : World)
    (resp : Response) :
  Forall (supplied req) (requiredFields s) ->
  Forall (passes req) (requiredFiles s) ->
  submit s req w = (resp, w') ->
  exists f1 f2 f3,
    Forall2 (holds req) (requiredFiles s) [f1; f2; f3]
    /\ Run s req f1 f2 f3 w resp w'.
Proof.
  intros Hfields Hfiles Hrun. rewrite submit_valid in Hrun by done.
  destruct (files_held s req Hfiles) as (f1 & f2 & f3 & Hheld & _).
  exists f1, f2, f3. split; [done |]. by apply handler_runs.
Qed.

(** ** The record *)

Lemma record_lookup (s : Service) (req : Request) (u1 u2 u3 : DocValue)
    (k : string) (v : DocValue) :
  (k, v) ∈ ((fun k => (k, field req k)) <$> requiredFields s)
           ++ zip (urlFields s) [u1; u2; u3]
           ++ [ ("timestamp", DServerTimestamp) ] ->
  record s req [u1; u2; u3] !! k = Some v.
Proof.
  intros Hin. unfold record. apply elem_of_list_to_map_1; [| done].
  rewrite !fmap_app, <- list_fmap_compose.
  destruct s; apply (bool_decide_unpack _); by vm_compute.
Qed.

Lemma record_field (s : Service) (req : Request) (u1 u2 u3 : DocValue)
    (k : string) :
  k ∈ requiredFields s ->
  record s req [u1; u2; u3] !! k = Some (field req k).
Proof.
  intros Hin. apply record_lookup. apply elem_of_app. left.
  by apply (list_elem_of_fmap_2 (fun k => (k, field req k))).
Qed.

Lemma record_url (s : Service) (req : Request) (u1 u2 u3 : DocValue)
    (k : string) :
  k ∈ urlFields s ->
  exists u, u ∈ [u1; u2; u3] /\ record s req [u1; u2; u3] !! k = Some u.
Proof.
  intros Hin.
  assert (exists u, (k, u) ∈ zip (urlFields s) [u1; u2; u3]) as [u Hu].
  { destruct s; simpl in *;
      repeat (apply elem_of_cons in Hin as [-> | Hin];
              [eexists; cbn; solve [repeat first [left | right]] |]);
      by apply elem_of_nil in Hin. }
  exists u. split.
  - by apply elem_of_zip_r in Hu.
  - apply record_lookup. apply elem_of_app. right.
    apply elem_of_app. by left.
Qed.

Lemma record_timestamp (s : Service) (req : Request) (u1 u2 u3 : DocValue) :
  record s req [u1; u2; u3] !! "timestamp" = Some DServerTimestamp.
Proof. apply record_lookup. set_solver. Qed.

(** ** Runs, read off their traces *)

(** Identify the events of the run in hypothesis [Ht] with those the
    case of [Run] at hand lists. *)
Ltac events Ht :=
  match type of Ht with
  | trace ?w' = trace ?w ++ ?evs =>
      match goal with
      | Hr : trace w' = trace w ++ _ |- _ =>
          rewrite Hr in Ht; apply app_inv_head in Ht; subst evs
      end
  end.

Lemma faultless_run (s : Service) (req : Request) (f1 f2 f3 : File)
    (w w' : World) (resp : Response) (evs : list Event) :
  Run s req f1 f2 f3 w resp w' ->
  trace w' = trace w ++ evs ->
  existsb isFailure evs = false ->
  resp = saved
  /\ storage w' = storage w ++ [ objectFor (uuids_drawn w) f1;
                                 objectFor (1 + uuids_drawn w) f2;
                                 objectFor (2 + uuids_drawn w) f3 ]
  /\ firestore w'
     = <[ collection s :=
            documents (collection s) w
            ++ [ commit (now w) <$>
                 record s req
                   [ DString (urlFor (uuids_drawn w) f1);
                     DString (urlFor (1 + uuids_drawn w) f2);
                     DString (urlFor (2 + uuids_drawn w) f3) ] ] ]>
         (firestore w)
  /\ AddCalled (collection s)
       (record s req
          [ DString (urlFor (uuids_drawn w) f1);
            DString (urlFor (1 + uuids_drawn w) f2);
            DString (urlFor (2 + uuids_drawn w) f3) ]) ∈ evs.
Proof.
  intros Hrun Ht Hok.
  destruct Hrun; events Ht; try discriminate Hok. subst.
  repeat (split; [done |]).
  do 3 (apply elem_of_app; right). apply list_elem_of_here.
Qed.

Lemma faulty_run (s : Service) (req : Request) (f1 f2 f3 : File)
    (w w' : World) (resp : Response) (evs : list Event) :
  Run s req f1 f2 f3 w resp w' ->
  trace w' = trace w ++ evs ->
  existsb isFailure evs = true ->
  resp = failed
  /\ firestore w' = firestore w
  /\ exists kept,
       storage w' = storage w ++ kept
       /\ blob_name <$> kept = finished evs.
Proof.
  intros Hrun Ht Hko.
  destruct Hrun; events Ht; try discriminate Hko;
    (split; [done |]); (split; [done |]).
  - exists []. by rewrite app_nil_r.
  - by eexists.
  - by eexists.
  - by eexists.
Qed.

(** ** The pipeline, property by property *)

(** C8.  For every file given to the upload helper: the object is named
    by the next identifier drawn from the generator, an underscore and
    the original file name, and the draw is consumed; the write stream
    is created with the file's declared type and is handed the file's
    whole buffer.  If the stream finishes, the object is in the bucket
    and the helper resolves to the URL built from the bucket's name and
    the encoded object name, with no further call to the bucket; if the
    stream fails, the helper rejects with the stream's own error. *)
Theorem upload_helper (f : File) (w : World) :
  let name := uuidv4 (uuids_drawn w) +:+ "_" +:+ originalname f in
  let begun := [ UuidDrawn (uuidv4 (uuids_drawn w));
                 WriteStreamCreated name (mimetype f);
                 StreamEnded name (buffer f) ] in
  exists out w',
    uploadFileToFirebase (Some f) w = (out, w')
    /\ uuids_drawn w' = S (uuids_drawn w)
    /\ firestore w' = firestore w
    /\ (out = Resolved
                ("https://firebasestorage.googleapis.com/v0/b/"
                 +:+ bucket_name +:+ "/o/" +:+ encodeURIComponent name
                 +:+ "?alt=media")
          /\ storage w' = storage w ++ [mkBlob name (mimetype f) (buffer f)]
          /\ trace w' = trace w ++ begun ++ [StreamFinished name]
        \/ exists err,
             out = Rejected err
             /\ storage w' = storage w
             /\ trace w' = trace w ++ begun
                           ++ [ StreamFailed name err;
                                ConsoleError "Blob stream error:" err ]).
Proof.
  intros name begun. pose proof (upload_spec f w) as U.
  destruct (uploadFileToFirebase (Some f) w) as [[url | err] w'];
    eexists; exists w'; (split; [reflexivity |]).
  - destruct U as (-> & Hn & Hst & Hfs & _ & Htr).
    repeat (split; [done |]). left. by repeat split.
  - destruct U as (Hn & Hst & Hfs & _ & Htr).
    repeat (split; [done |]). right. by exists err.
Qed.

(** C5.  When a request has passed validation and an upload or the append
    fails, the answer is status 500 with the one message
    ["Terjadi kesalahan saat menyimpan data"], whichever step it was that
    failed; no document is added to any collection; and the bucket keeps
    everything it held, together with every object whose stream finished
    before the failure. *)
Theorem failure_answers_500 (s : Service) (req : Request) (w w' : World)
    (resp : Response) (evs : list Event) :
  Forall (supplied req) (requiredFields s) ->
  Forall (passes req) (requiredFiles s) ->
  submit s req w = (resp, w') ->
  trace w' = trace w ++ evs ->
  existsb isFailure evs = true ->
  resp = mkResponse 500 "Terjadi kesalahan saat menyimpan data"
  /\ firestore w' = firestore w
  /\ exists kept,
       storage w' = storage w ++ kept
       /\ blob_name <$> kept = finished evs.
Proof.
  intros Hfields Hfiles Hrun Ht Hko.
  destruct (submit_runs s req w w' resp Hfields Hfiles Hrun)
    as (f1 & f2 & f3 & _ & HRun).
  by eapply faulty_run.
Qed.

(** What Firestore keeps of the record of a run. *)
Lemma committed_record (s : Service) (req : Request) (u1 u2 u3 : string)
    (t : Z) :
  let doc := commit t <$> record s req [DString u1; DString u2; DString u3] in
  (forall k, k ∈ requiredFields s ->
             doc !! k = Some (commit t (field req k)))
  /\ (forall k, k ∈ urlFields s ->
                exists u, u ∈ [u1; u2; u3] /\ doc !! k = Some (DString u))
  /\ doc !! "timestamp" = Some (DTimestamp t).
Proof.
  intros doc. unfold doc. repeat split.
  - intros k Hk. by rewrite lookup_fmap, record_field.
  - intros k Hk.
    destruct (record_url s req (DString u1) (DString u2) (DString u3) k Hk)
      as (u & Hu & Hlook).
    rewrite lookup_fmap, Hlook.
    repeat (apply elem_of_cons in Hu as [-> | Hu];
            [eexists; split; [| reflexivity];
             solve [repeat first [left | right]] |]).
    by apply elem_of_nil in Hu.
  - by rewrite lookup_fmap, record_timestamp.
Qed.

(** C6.  When a request has passed validation and its uploads and the
    append all succeed, exactly one document is added, to the collection
    of the service, and to no other.  The document holds the submitted
    value of every required field and a URL under each of the three URL
    fields.  Under [timestamp] the handler hands [add] the server-timestamp
    sentinel, whatever the request contains, and the document holds the
    reading of Firestore's clock in its place. *)
Theorem success_adds_one_record (s : Service) (req : Request)
    (w w' : World) (resp : Response) (evs : list Event) :
  Forall (supplied req) (requiredFields s) ->
  Forall (passes req) (requiredFiles s) ->
  submit s req w = (resp, w') ->
  trace w' = trace w ++ evs ->
  existsb isFailure evs = false ->
  exists sent doc,
    AddCalled (collection s) sent ∈ evs
    /\ sent !! "timestamp" = Some DServerTimestamp
    /\ doc = commit (now w) <$> sent
    /\ firestore w'
       = <[ collection s := documents (collection s) w ++ [doc] ]>
           (firestore w)
    /\ (forall k, k ∈ requiredFields s ->
          exists v, body req !! k = Some v /\ v <> EmptyString
                    /\ doc !! k = Some (DString v))
    /\ (forall k, k ∈ urlFields s ->
          exists url, doc !! k = Some (DString url))
    /\ doc !! "timestamp" = Some (DTimestamp (now w)).
Proof.
  intros Hfields Hfiles Hrun Ht Hok.
  destruct (submit_runs s req w w' resp Hfields Hfiles Hrun)
    as (f1 & f2 & f3 & _ & HRun).
  destruct (faultless_run _ _ _ _ _ _ _ _ _ HRun Ht Hok)
    as (_ & _ & Hfs & Hsent).
  eexists; eexists. split; [exact Hsent |].
  split; [apply record_timestamp |]. split; [reflexivity |].
  split; [exact Hfs |].
  destruct (committed_record s req (urlFor (uuids_drawn w) f1)
              (urlFor (1 + uuids_drawn w) f2)
              (urlFor (2 + uuids_drawn w) f3) (now w))
    as (Hf & Hu & Hts).
  repeat split; [| | exact Hts].
  - intros k Hk. rewrite (Hf k Hk).
    assert (supplied req k) as (v & Hv & Hne)
      by (revert k Hk; by apply Forall_forall).
    exists v. unfold field. by rewrite Hv.
  - intros k Hk. destruct (Hu k Hk) as (u & _ & Hlook). eauto.
Qed.

(** C2, as the code has it.  A research submission that supplies
    [letterNumber] and the fourteen other fields, with a PDF in each of
    the three slots, and whose uploads and append all succeed, is
    answered with status 200, and exactly one document is added to the
    research collection, with a URL under each of its three URL
    fields. *)
Theorem research_submission_saved (req : Request) (w w' : World)
    (resp : Response) (evs : list Event) :
  Forall (supplied req)
    [ "letterNumber"; "name"; "researcherName"; "address"; "inputValue";
      "institution"; "occupation"; "judulPenelitian"; "researchField";
      "tujuanPenelitian"; "supervisorName"; "teamMembers";
      "statusPenelitian"; "researchPeriod"; "researchLocation" ] ->
  Forall (fun slot => exists f, holds req slot f
                                /\ mimetype f = "application/pdf")
    [ "suratPengantarFile"; "proposalFile"; "ktpFile" ] ->
  post_api_penelitian req w = (resp, w') ->
  trace w' = trace w ++ evs ->
  existsb isFailure evs = false ->
  resp = mkResponse 200 "Data berhasil disimpan"
  /\ exists doc u1 u2 u3,
       firestore w'
       = <[ "pelayanan/penelitian/data" :=
              documents "pelayanan/penelitian/data" w ++ [doc] ]>
           (firestore w)
       /\ doc !! "suratPengantarUrl" = Some (DString u1)
       /\ doc !! "proposalUrl" = Some (DString u2)
       /\ doc !! "ktpUrl" = Some (DString u3).
Proof.
  intros Hfields Hpdf Hrun Ht Hok.
  assert (Forall (passes req) (requiredFiles Research)) as Hfiles.
  { eapply Forall_impl; [exact Hpdf |].
    intros slot (f & Hf & Hmt). exists f. split; [done |].
    rewrite Hmt. by left. }
  destruct (submit_runs Research req w w' resp Hfields Hfiles Hrun)
    as (f1 & f2 & f3 & _ & HRun).
  destruct (faultless_run _ _ _ _ _ _ _ _ _ HRun Ht Hok)
    as (-> & _ & Hfs & _).
  split; [done |].
  destruct (committed_record Research req (urlFor (uuids_drawn w) f1)
              (urlFor (1 + uuids_drawn w) f2)
              (urlFor (2 + uuids_drawn w) f3) (now w))
    as (_ & Hu & _).
  destruct (Hu "suratPengantarUrl") as (u1 & _ & H1);
    [by repeat first [left | right] |].
  destruct (Hu "proposalUrl") as (u2 & _ & H2);
    [by repeat first [left | right] |].
  destruct (Hu "ktpUrl") as (u3 & _ & H3);
    [by repeat first [left | right] |].
  eexists; exists u1, u2, u3. split; [exact Hfs |]. done.
Qed.

(** C7.  In every run on a validated submission the trace is sequential:
    each stream is created, written and brought to its end before the
    next operation begins.  The streams are created in the order of the
    slots; and when [add] is called, the streams of all three slots have
    finished before it, in that order. *)
Theorem uploads_one_at_a_time (s : Service) (req : Request) (w w' : World)
    (resp : Response) (evs : list Event) :
  Forall (supplied req) (requiredFields s) ->
  Forall (passes req) (requiredFiles s) ->
  submit s req w = (resp, w') ->
  trace w' = trace w ++ evs ->
  exists f1 f2 f3,
    Forall2 (holds req) (requiredFiles s) [f1; f2; f3]
    /\ sequentialFrom Idle evs = true
    /\ created evs `prefix_of`
         [ blob_name (objectFor (uuids_drawn w) f1);
           blob_name (objectFor (1 + uuids_drawn w) f2);
           blob_name (objectFor (2 + uuids_drawn w) f3) ]
    /\ forall before,
         beforeAdd evs = Some before ->
         finished before
         = [ blob_name (objectFor (uuids_drawn w) f1);
             blob_name (objectFor (1 + uuids_drawn w) f2);
             blob_name (objectFor (2 + uuids_drawn w) f3) ].
Proof.
  intros Hfields Hfiles Hrun Ht.
  destruct (submit_runs s req w w' resp Hfields Hfiles Hrun)
    as (f1 & f2 & f3 & Hheld & HRun).
  exists f1, f2, f3. split; [done |].
  destruct HRun; events Ht; cbn; rewrite ?String.eqb_refl; cbn;
    (split; [reflexivity |]); split;
    try (intros before [= <-]; reflexivity);
    try (intros before [=]);
    by eexists.
Qed.

(** C9.  For a request that the file validator lets through, every
    required slot holds a file, so the handler's expression for the slot
    is the upload of that file and never [null]; and the document of any
    run of the handler that adds one has a URL, not [null], under each of
    its three URL fields. *)
Theorem validated_slots_are_uploaded (s : Service) (req : Request) :
  validateFiles s req = Next ->
  (forall slot, slot ∈ requiredFiles s ->
     exists f,
       holds req slot f
       /\ uploadSlot req slot
          = (uploadFileToFirebase (Some f) ≫= fun url => mret (DString url))
       /\ forall w v w',
            uploadSlot req slot w = (Resolved v, w') -> v <> DNull)
  /\ (forall w resp w' doc,
        handler s req w = (resp, w') ->
        documents (collection s) w' = documents (collection s) w ++ [doc] ->
        forall k, k ∈ urlFields s ->
                  exists url, doc !! k = Some (DString url)).
Proof.
  intros Hnext.
  assert (Forall (passes req) (requiredFiles s)) as Hfiles
    by (destruct s; by apply requireFiles_Next).
  split.
  - intros slot Hslot.
    assert (passes req slot) as (f & [rest Hf] & _)
      by (revert slot Hslot; by apply Forall_forall).
    exists f. split; [by exists rest |].
    unfold uploadSlot. rewrite Hf. split; [done |].
    intros w v w'. unfold mbind, async_bind. simpl.
    destruct (uploadFileToFirebase (Some f) w) as [[url | err] w1];
      intros [= <- _]; done.
  - intros w resp w' doc Hrun Hdocs k Hk.
    destruct (files_held s req Hfiles) as (f1 & f2 & f3 & Hheld & _).
    pose proof (handler_runs s req f1 f2 f3 w w' resp Hheld Hrun) as HRun.
    assert (firestore w' = firestore w -> False) as Hsame.
    { intros Heq. unfold documents in Hdocs. rewrite Heq in Hdocs.
      apply (f_equal length) in Hdocs. rewrite length_app in Hdocs.
      simpl in Hdocs. lia. }
    destruct HRun; try (by exfalso; apply Hsame).
    unfold documents in Hdocs at 1.
    match goal with Hfs : firestore _ = _ |- _ => rewrite Hfs in Hdocs end.
    rewrite lookup_insert_eq in Hdocs. simpl in Hdocs.
    apply app_inv_head in Hdocs. injection Hdocs as <-. subst.
    destruct (committed_record s req (urlFor (uuids_drawn w) f1)
                (urlFor (1 + uuids_drawn w) f2)
                (urlFor (2 + uuids_drawn w) f3) (now w))
      as (_ & Hu & _).
    destruct (Hu k Hk) as (u & _ & Hlook). eauto.
Qed.

End Properties.

(** ** What validation looks at *)

Lemma requireFields_withBytes (g : File -> list byte) (fields : list string)
    (req : Request) :
  requireFields fields (withBytes g req) = requireFields fields req.
Proof.
  induction fields as [|k fields IH]; simpl; [done |]. by rewrite IH.
Qed.

Lemma requireFiles_withBytes (g : File -> list byte) (slots : list string)
    (req : Request) :
  requireFiles slots (withBytes g req) = requireFiles slots req.
Proof.
  induction slots as [|slot slots IH]; simpl; [done |].
  rewrite lookup_fmap, IH.
  by destruct (files req !! slot) as [[|f rest]|].
Qed.

(** C10.  Validation and the stored object's content type rest on the
    declared type of the part alone.  Replacing the bytes of every file of
    a request changes the verdict of neither validator; the object written
    for a file carries the file's declared type and its bytes as they are;
    and there is a research submission whose proposal is declared
    [application/pdf], whose bytes are those of neither a PDF, a JPEG nor a
    PNG, and which passes validation, is stored under that type and is
    recorded. *)
Theorem declared_type_is_trusted :
  (forall (s : Service) (g : File -> list byte) (req : Request),
     validateForm s (withBytes g req) = validateForm s req
     /\ validateFiles s (withBytes g req) = validateFiles s req)
  /\ (forall (P : Platform) (f : File) (w : World),
        match uploadFileToFirebase (Some f) w with
        | (Resolved _, w') =>
            exists b, storage w' = storage w ++ [b]
                      /\ contentType b = mimetype f
                      /\ contents b = buffer f
        | (Rejected _, w') => storage w' = storage w
        end)
  /\ exists (P : Platform) (req : Request) (w : World) (f : File),
       holds req "proposalFile" f
       /\ mimetype f = "application/pdf"
       /\ looksLikePdf (buffer f) = false
       /\ looksLikeJpeg (buffer f) = false
       /\ looksLikePng (buffer f) = false
       /\ validateResearchFiles req = Next
       /\ exists w' doc,
            post_api_penelitian req w = (saved, w')
            /\ storage w' !! 1 = Some (mkBlob (uuidv4 1 +:+ "_proposal.pdf")
                                         "application/pdf" (buffer f))
            /\ documents penelitianData w'
               = documents penelitianData w ++ [doc]
            /\ doc !! "proposalUrl" = Some (DString (urlFor 1 f)).
Proof.
  split; [| split].
  - intros s g req.
    destruct s; split;
      first [apply requireFields_withBytes | apply requireFiles_withBytes].
  - intros P f w. pose proof (upload_spec f w) as U.
    destruct (uploadFileToFirebase (Some f) w) as [[url | err] w'].
    + destruct U as (_ & _ & Hst & _). by eexists.
    + by destruct U as (_ & Hst & _).
  - exists Sample.reliable, Sample.researchDisguised, Sample.startup,
      Sample.disguised.
    split; [by exists [] |].
    repeat (split; [reflexivity |]).
    exists (snd (@post_api_penelitian Sample.reliable
                   Sample.researchDisguised Sample.startup)),
      (commit (now Sample.startup) <$>
       record Research Sample.researchDisguised
         [ DString (@urlFor Sample.reliable 0 Sample.surat);
           DString (@urlFor Sample.reliable 1 Sample.disguised);
           DString (@urlFor Sample.reliable 2 Sample.ktp) ]).
    repeat split; vm_compute; reflexivity.
Qed.

(** ** The specification's scenarios, run *)

(** Scenario B: an internship form without [supervisorName]. *)
Example scenario_missing_supervisor :
  @post_api_magang Sample.reliable Sample.internshipNoSupervisor Sample.startup
  = (mkResponse 400 "supervisorName is required", Sample.startup).
Proof. vm_compute. reflexivity. Qed.

(** Scenario C: an executable in the proposal slot. *)
Example scenario_executable :
  @post_api_penelitian Sample.reliable Sample.researchExe Sample.startup
  = (mkResponse 400 "File proposalFile must be a PDF, JPEG, or PNG",
     Sample.startup).
Proof. vm_compute. reflexivity. Qed.

(** A slot left out. *)
Example scenario_missing_slot :
  @post_api_penelitian Sample.reliable Sample.researchNoKtp Sample.startup
  = (mkResponse 400 "File ktpFile is required", Sample.startup).
Proof. vm_compute. reflexivity. Qed.

(** Scenario D: the second write fails; the first object stays. *)
Example scenario_write_fails :
  let run := @post_api_penelitian Sample.secondWriteFails Sample.research15
               Sample.startup in
  fst run = mkResponse 500 "Terjadi kesalahan saat menyimpan data"
  /\ storage (snd run)
     = [ mkBlob "id0_surat.pdf" "application/pdf" Sample.pdfBytes ]
  /\ firestore (snd run) = ∅.
Proof. vm_compute. repeat split; reflexivity. Qed.

(** Firestore down: three objects stay, and the answer is the same. *)
Example scenario_add_fails :
  let run := @post_api_magang Sample.firestoreDown Sample.internship
               Sample.startup in
  fst run = mkResponse 500 "Terjadi kesalahan saat menyimpan data"
  /\ blob_name <$> storage (snd run)
     = [ "id0_surat.pdf"; "id1_proposal.pdf"; "id2_ktp.pdf" ]
  /\ firestore (snd run) = ∅.
Proof. vm_compute. repeat split; reflexivity. Qed.

Example encodeURIComponent_sample :
  encodeURIComponent "id0_surat izin (1).pdf" = "id0_surat%20izin%20(1).pdf".
Proof. reflexivity. Qed.

(** ** The research form without its letter number *)

(** The fourteen fields with a PDF in each slot do not make a research
    submission: [validateResearchForm] asks for [letterNumber] first.  On a
    platform that never fails, the submission [Sample.research14] is
    answered 400 and nothing is recorded. *)
Lemma research_without_letter_number :
  Forall (supplied Sample.research14)
    [ "name"; "researcherName"; "address"; "inputValue"; "institution";
      "occupation"; "judulPenelitian"; "researchField"; "tujuanPenelitian";
      "supervisorName"; "teamMembers"; "statusPenelitian"; "researchPeriod";
      "researchLocation" ]
  /\ Forall (fun slot => exists f, holds Sample.research14 slot f
                                   /\ mimetype f = "application/pdf")
       [ "suratPengantarFile"; "proposalFile"; "ktpFile" ]
  /\ @post_api_penelitian Sample.reliable Sample.research14 Sample.startup
     = (mkResponse 400 "letterNumber is required", Sample.startup)
  /\ ~ (status (fst (@post_api_penelitian Sample.reliable Sample.research14
                       Sample.startup)) = 200
        /\ exists doc,
             documents "pelayanan/penelitian/data"
               (snd (@post_api_penelitian Sample.reliable Sample.research14
                       Sample.startup))
             = [doc]).
Proof.
  split; [| split; [| split]].
  - apply requireFields_Next. vm_compute. reflexivity.
  - repeat constructor.
    + exists Sample.surat. split; [by exists [] | done].
    + exists Sample.proposal. split; [by exists [] | done].
    + exists Sample.ktp. split; [by exists [] | done].
  - vm_compute. reflexivity.
  - intros [Hstatus _]. vm_compute in Hstatus. discriminate Hstatus.
Qed.

(** ** The theorems at work on the samples *)


Lemma exe_fails_proposal_slot :
  Exists (failsSlot Sample.researchExe) (requiredFiles Research).
Proof.
  apply Exists_exists. exists "proposalFile". split.
  - apply list_elem_of_further, list_elem_of_here.
  - right. exists Sample.program. split; [by exists [] |].
    intros [Hm | [Hm | Hm]]; discriminate Hm.
Defined.

Lemma file_validator_first_failure_sample :
  exists pre slot post,
    requiredFiles Research = pre ++ slot :: post
    /\ Forall (passes Sample.researchExe) pre
    /\ (missingSlot Sample.researchExe slot
          /\ validateFiles Research Sample.researchExe
             = Respond (mkResponse 400 ("File " +:+ slot +:+ " is required"))
        \/ wrongType Sample.researchExe slot
          /\ validateFiles Research Sample.researchExe
             = Respond (mkResponse 400
                 ("File " +:+ slot +:+ " must be a PDF, JPEG, or PNG")))
    /\ forall req',
         (forall k, k ∈ pre ++ [slot] ->
            files req' !! k = files Sample.researchExe !! k) ->
         validateFiles Research req'
         = validateFiles Research Sample.researchExe.
Proof.
  apply (proj1 (file_validator_first_failure Research Sample.researchExe)).
  exact exe_fails_proposal_slot.
Defined.

Lemma research15_fields :
  Forall (supplied Sample.research15) (requiredFields Research).
Proof. apply requireFields_Next. vm_compute. reflexivity. Defined.

Lemma research15_files :
  Forall (passes Sample.research15) (requiredFiles Research).
Proof. apply requireFiles_Next. vm_compute. reflexivity. Defined.

Lemma failure_answers_500_sample :
  fst (@submit Sample.secondWriteFails Research Sample.research15
         Sample.startup)
  = mkResponse 500 "Terjadi kesalahan saat menyimpan data"
  /\ firestore (snd (@submit Sample.secondWriteFails Research
                       Sample.research15 Sample.startup))
     = firestore Sample.startup
  /\ exists kept,
       storage (snd (@submit Sample.secondWriteFails Research
                       Sample.research15 Sample.startup))
       = storage Sample.startup ++ kept
       /\ blob_name <$> kept
          = finished (trace (snd (@submit Sample.secondWriteFails Research
                                    Sample.research15 Sample.startup))).
Proof.
  apply (@failure_answers_500 Sample.secondWriteFails Research
           Sample.research15 Sample.startup).
  - exact research15_fields.
  - exact research15_files.
  - apply surjective_pairing.
  - reflexivity.
  - vm_compute. reflexivity.
Defined.

Lemma success_adds_one_record_sample :
  exists sent doc,
    AddCalled (collection Research) sent
      ∈ trace (snd (@submit Sample.reliable Research Sample.research15
                      Sample.startup))
    /\ sent !! "timestamp" = Some DServerTimestamp
    /\ doc = commit (now Sample.startup) <$> sent
    /\ firestore (snd (@submit Sample.reliable Research Sample.research15
                         Sample.startup))
       = <[ collection Research :=
              documents (collection Research) Sample.startup ++ [doc] ]>
           (firestore Sample.startup)
    /\ (forall k, k ∈ requiredFields Research ->
          exists v, body Sample.research15 !! k = Some v
                    /\ v <> EmptyString /\ doc !! k = Some (DString v))
    /\ (forall k, k ∈ urlFields Research ->
          exists url, doc !! k = Some (DString url))
    /\ doc !! "timestamp" = Some (DTimestamp (now Sample.startup)).
Proof.
  apply (@success_adds_one_record Sample.reliable Research Sample.research15
           Sample.startup _
           (fst (@submit Sample.reliable Research Sample.research15
                   Sample.startup))
           (trace (snd (@submit Sample.reliable Research Sample.research15
                          Sample.startup)))).
  - exact research15_fields.
  - exact research15_files.
  - apply surjective_pairing.
  - reflexivity.
  - vm_compute. reflexivity.
Defined.

Lemma research_submission_saved_sample :
  fst (@post_api_penelitian Sample.reliable Sample.research15 Sample.startup)
  = mkResponse 200 "Data berhasil disimpan"
  /\ exists doc u1 u2 u3,
       firestore (snd (@post_api_penelitian Sample.reliable Sample.research15
                         Sample.startup))
       = <[ "pelayanan/penelitian/data" :=
              documents "pelayanan/penelitian/data" Sample.startup ++ [doc] ]>
           (firestore Sample.startup)
       /\ doc !! "suratPengantarUrl" = Some (DString u1)
       /\ doc !! "proposalUrl" = Some (DString u2)
       /\ doc !! "ktpUrl" = Some (DString u3).
Proof.
  apply (@research_submission_saved Sample.reliable Sample.research15
           Sample.startup _ _
           (trace (snd (@post_api_penelitian Sample.reliable
                          Sample.research15 Sample.startup)))).
  - exact research15_fields.
  - repeat constructor.
    + exists Sample.surat. split; [by exists [] | done].
    + exists Sample.proposal. split; [by exists [] | done].
    + exists Sample.ktp. split; [by exists [] | done].
  - apply surjective_pairing.
  - reflexivity.
  - vm_compute. reflexivity.
Defined.

Lemma uploads_one_at_a_time_sample :
  exists f1 f2 f3,
    Forall2 (holds Sample.research15) (requiredFiles Research) [f1; f2; f3]
    /\ sequentialFrom Idle
         (trace (snd (@submit Sample.reliable Research Sample.research15
                        Sample.startup))) = true
    /\ created (trace (snd (@submit Sample.reliable Research
                              Sample.research15 Sample.startup)))
       `prefix_of`
         [ blob_name (@objectFor Sample.reliable 0 f1);
           blob_name (@objectFor Sample.reliable 1 f2);
           blob_name (@objectFor Sample.reliable 2 f3) ]
    /\ forall before,
         beforeAdd (trace (snd (@submit Sample.reliable Research
                                  Sample.research15 Sample.startup)))
         = Some before ->
         finished before
         = [ blob_name (@objectFor Sample.reliable 0 f1);
             blob_name (@objectFor Sample.reliable 1 f2);
             blob_name (@objectFor Sample.reliable 2 f3) ].
Proof.
  apply (@uploads_one_at_a_time Sample.reliable Research Sample.research15
           Sample.startup
           (snd (@submit Sample.reliable Research Sample.research15
                   Sample.startup))
           (fst (@submit Sample.reliable Research Sample.research15
                   Sample.startup))).
  - exact research15_fields.
  - exact research15_files.
  - apply surjective_pairing.
  - reflexivity.
Defined.

Lemma validated_slots_are_uploaded_sample :
  exists f,
    holds Sample.research15 "ktpFile" f
    /\ @uploadSlot Sample.reliable Sample.research15 "ktpFile"
       = (@uploadFileToFirebase Sample.reliable (Some f)
            ≫= fun url => mret (DString url))
    /\ forall w v w',
         @uploadSlot Sample.reliable Sample.research15 "ktpFile" w
         = (Resolved v, w') -> v <> DNull.
Proof.
  apply (proj1 (@validated_slots_are_uploaded Sample.reliable Research
                  Sample.research15 eq_refl)).
  do 2 apply list_elem_of_further. apply list_elem_of_here.
Defined.

(** * Beyond the stated properties *)

(** ** Strings *)

Lemma append_same_length (a b x y : string) :
  String.length a = String.length b ->
  a +:+ x = b +:+ y -> a = b /\ x = y.
Proof.
  revert b. induction a as [|c a IH]; intros [|d b] Hlen Heq;
    try discriminate Hlen; [done |].
  simpl in Heq. injection Heq as -> Heq. injection Hlen as Hlen.
  destruct (IH b Hlen Heq) as [-> ->]. done.
Qed.

Lemma length_append (a x : string) :
  String.length (a +:+ x) = String.length a + String.length x.
Proof. induction a as [|c a IH]; simpl; [done | by rewrite IH]. Qed.

Lemma append_cancel_r (a b x : string) :
  a +:+ x = b +:+ x -> a = b.
Proof.
  intros Heq. apply (append_same_length a b x x); [| done].
  apply (f_equal String.length) in Heq.
  rewrite !length_append in Heq. lia.
Qed.

Lemma decodeHead_encodeChar (c : ascii) (t : string) :
  decodeHead (encodeChar c +:+ t) = Some (c, t).
Proof.
  destruct c as [[] [] [] [] [] [] [] []]; reflexivity.
Qed.

Lemma encodeURIComponent_inj (s1 s2 : string) :
  encodeURIComponent s1 = encodeURIComponent s2 -> s1 = s2.
Proof.
  revert s2. induction s1 as [|c1 s1 IH]; intros [|c2 s2] Heq; [done | | |].
  - apply (f_equal decodeHead) in Heq. simpl in Heq.
    rewrite decodeHead_encodeChar in Heq. discriminate Heq.
  - apply (f_equal decodeHead) in Heq. simpl in Heq.
    rewrite decodeHead_encodeChar in Heq. discriminate Heq.
  - apply (f_equal decodeHead) in Heq. simpl in Heq.
    rewrite !decodeHead_encodeChar in Heq. injection Heq as -> Heq.
    by rewrite (IH s2 Heq).
Qed.

Lemma allChars_append (p : ascii -> bool) (a b : string) :
  allChars p (a +:+ b) = allChars p a && allChars p b.
Proof.
  induction a as [|c a IH]; simpl; [done |].
  by rewrite IH, andb_assoc.
Qed.

Lemma encodeChar_urlSafe (c : ascii) :
  allChars urlSafe (encodeChar c) = true.
Proof.
  destruct c as [[] [] [] [] [] [] [] []]; reflexivity.
Qed.

(** ** The public URL *)

(** X1.  The name under which an object is stored can be read back from
    its public URL: two different object names never get the same URL. *)
Theorem public_url_determines_object `{Platform} (name1 name2 : string) :
  name1 <> name2 -> publicUrl name1 <> publicUrl name2.
Proof.
  intros Hne Heq. apply Hne. unfold publicUrl in Heq.
  apply append_same_length in Heq as [_ Heq]; [| done].
  apply append_same_length in Heq as [_ Heq]; [| done].
  apply append_same_length in Heq as [_ Heq]; [| done].
  apply append_cancel_r in Heq. by apply encodeURIComponent_inj.
Qed.

Lemma public_url_determines_object_sample :
  @publicUrl Sample.reliable "id0_scan.pdf"
  <> @publicUrl Sample.reliable "id1_scan.pdf".
Proof.
  apply (@public_url_determines_object Sample.reliable).
  discriminate.
Defined.

(** X2.  Whatever the original file name contains, the part of the public
    URL that stands for the object consists of unreserved characters and
    percent signs only; a slash, a question mark, a hash, an ampersand or
    a space in a file name cannot reach the URL as such. *)
Theorem encoded_name_is_url_safe (name : string) :
  allChars urlSafe (encodeURIComponent name) = true
  /\ urlSafe "/" = false /\ urlSafe "?" = false /\ urlSafe "#" = false
  /\ urlSafe "&" = false /\ urlSafe " " = false.
Proof.
  split; [| by repeat split].
  induction name as [|c name IH]; simpl; [done |].
  by rewrite allChars_append, encodeChar_urlSafe, IH.
Qed.

(** X3.  When the identifiers of two draws have the same length and
    differ, the two object names differ, even for files of the same
    original name. *)
Theorem object_names_never_collide `{Platform} (n m : nat) (f g : File) :
  String.length (uuidv4 n) = String.length (uuidv4 m) ->
  uuidv4 n <> uuidv4 m ->
  blob_name (objectFor n f) <> blob_name (objectFor m g).
Proof.
  intros Hlen Hne Heq. simpl in Heq.
  by apply append_same_length in Heq as [? _].
Qed.

Lemma object_names_never_collide_sample :
  blob_name (@objectFor Sample.reliable 0 Sample.proposal)
  <> blob_name (@objectFor Sample.reliable 1 Sample.proposal).
Proof.
  apply (@object_names_never_collide Sample.reliable 0 1).
  - reflexivity.
  - discriminate.
Defined.

(** ** The private key *)

(** Induction on strings two characters at a time. *)
Lemma string_pair_ind (P : string -> Prop) :
  P EmptyString ->
  (forall c, P (String c EmptyString)) ->
  (forall c d rest,
     P rest -> P (String d rest) -> P (String c (String d rest))) ->
  forall s, P s.
Proof.
  intros H0 H1 H2.
  assert (forall s, P s /\ forall c, P (String c s)) as Hboth.
  { induction s as [|d s [IHs IHc]]; [by split |].
    split; [apply IHc |]. intros c. by apply H2. }
  intros s. apply Hboth.
Qed.

(** The replacement never begins with an [n] that the string did not begin
    with. *)
Lemma replaceEscapedNewlines_head (d e : ascii) (rest t : string) :
  replaceEscapedNewlines (String d rest) = String e t ->
  e = "n"%char -> d = "n"%char.
Proof.
  destruct rest as [|d' rest]; simpl.
  - by intros [= <- _].
  - destruct (Ascii.eqb d "092" && Ascii.eqb d' "n").
    + intros [= <- _] Hn. discriminate Hn.
    + by intros [= <- _].
Qed.

Lemma hasEscapedNewline_step (c d : ascii) (rest : string) :
  hasEscapedNewline (String c (String d rest))
  = (Ascii.eqb c "092" && Ascii.eqb d "n")
    || hasEscapedNewline (String d rest).
Proof. reflexivity. Qed.

Lemma replaceEscapedNewlines_step (c d : ascii) (rest : string) :
  replaceEscapedNewlines (String c (String d rest))
  = if Ascii.eqb c "092" && Ascii.eqb d "n"
    then String "010" (replaceEscapedNewlines rest)
    else String c (replaceEscapedNewlines (String d rest)).
Proof. reflexivity. Qed.

Lemma replaceEscapedNewlines_clean (s : string) :
  hasEscapedNewline (replaceEscapedNewlines s) = false.
Proof.
  induction s as [| c | c d rest IHrest IHd] using string_pair_ind;
    [done | done |].
  rewrite replaceEscapedNewlines_step.
  destruct (Ascii.eqb c "092" && Ascii.eqb d "n") eqn:Hcd.
  - destruct (replaceEscapedNewlines rest) as [|e t] eqn:Hr; [done |].
    by rewrite hasEscapedNewline_step, IHrest.
  - destruct (replaceEscapedNewlines (String d rest)) as [|e t] eqn:Hr;
      [done |].
    rewrite hasEscapedNewline_step, IHd, orb_false_r.
    destruct (Ascii.eqb c "092") eqn:Hc; [| done].
    destruct (Ascii.eqb e "n") eqn:He; [| done].
    apply Ascii.eqb_eq in He.
    apply (replaceEscapedNewlines_head d e rest t Hr) in He as ->.
    simpl in Hcd. discriminate Hcd.
Qed.

Lemma replaceEscapedNewlines_id (s : string) :
  hasEscapedNewline s = false -> replaceEscapedNewlines s = s.
Proof.
  induction s as [| c | c d rest IHrest IHd] using string_pair_ind;
    [done | done |].
  rewrite hasEscapedNewline_step, replaceEscapedNewlines_step.
  intros [Hcd Hrest]%orb_false_elim. rewrite Hcd. by rewrite IHd.
Qed.

(** X4.  After the replacement that prepares the service account's private
    key, no backslash followed by [n] is left in it, so preparing a key
    that is already prepared changes nothing; and the key never grows. *)
Theorem private_key_is_unescaped (s : string) :
  hasEscapedNewline (replaceEscapedNewlines s) = false
  /\ replaceEscapedNewlines (replaceEscapedNewlines s)
     = replaceEscapedNewlines s
  /\ String.length (replaceEscapedNewlines s) <= String.length s.
Proof.
  split; [apply replaceEscapedNewlines_clean |].
  split; [apply replaceEscapedNewlines_id, replaceEscapedNewlines_clean |].
  induction s as [| c | c d rest IHrest IHd] using string_pair_ind;
    [done | done |].
  rewrite replaceEscapedNewlines_step.
  destruct (Ascii.eqb c "092" && Ascii.eqb d "n");
    cbn [String.length] in *; lia.
Qed.

Example replaceEscapedNewlines_sample :
  replaceEscapedNewlines
    (String "K" (String "092" (String "n" (String "E" (String "092"
       (String "092" (String "n" EmptyString)))))))
  = String "K" (String "010" (String "E" (String "092" (String "010"
      EmptyString)))).
Proof. reflexivity. Qed.

(** ** What no request can do *)

Section Invariants.

Context `{Platform}.

Lemma documents_insert (path c : string) (doc : gmap string DocValue)
    (w w' : World) :
  firestore w' = <[ c := documents c w ++ [doc] ]> (firestore w) ->
  documents path w'
  = if decide (path = c) then documents path w ++ [doc]
    else documents path w.
Proof.
  intros Hfs. unfold documents at 1. rewrite Hfs.
  destruct (decide (path = c)) as [-> | Hne].
  - by rewrite lookup_insert_eq.
  - by rewrite lookup_insert_ne.
Qed.

Lemma valid_or_refused (s : Service) (req : Request) (w : World) :
  (Forall (supplied req) (requiredFields s)
   /\ Forall (passes req) (requiredFiles s))
  \/ exists msg, submit s req w = (mkResponse 400 msg, w).
Proof.
  destruct (supplied_or_all_missing req (requiredFields s)) as [Hf | Hf];
    destruct (passes_or_some_fails req (requiredFiles s)) as [Hs | Hs];
    [by left | right ..]; apply submit_refused; auto.
Qed.

(** X5.  No request to either route, valid or not, and however its run
    ends, removes or replaces anything: the bucket after the run is the
    bucket before it followed by at most three new objects, and every
    Firestore collection holds the documents it held, followed, in the
    collection of the service only, by at most one new document. *)
Theorem stores_are_append_only (s : Service) (req : Request) (w : World) :
  storage w `prefix_of` storage (snd (submit s req w))
  /\ length (storage (snd (submit s req w))) <= length (storage w) + 3
  /\ forall path,
       documents path w `prefix_of` documents path (snd (submit s req w))
       /\ length (documents path (snd (submit s req w)))
          <= length (documents path w) + 1
       /\ (path <> collection s ->
           documents path (snd (submit s req w)) = documents path w).
Proof.
  destruct (valid_or_refused s req w) as [[Hfields Hfiles] | [msg ->]].
  - destruct (submit s req w) as [resp w'] eqn:Hrun. cbn [snd].
    destruct (submit_runs s req w w' resp Hfields Hfiles Hrun)
      as (f1 & f2 & f3 & _ & HRun).
    assert (forall path,
              firestore w' = firestore w ->
              documents path w `prefix_of` documents path w'
              /\ length (documents path w') <= length (documents path w) + 1
              /\ (path <> collection s ->
                  documents path w' = documents path w)) as Hsame.
    { intros path Hfs. unfold documents. rewrite Hfs.
      split; [done |]. split; [lia | done]. }
    destruct HRun as [err w' Hst Hfs _ | err w' Hst Hfs _
                     | err w' Hst Hfs _ | err w' doc _ Hst Hfs _
                     | w' doc _ Hst Hfs _];
      rewrite Hst;
      (split; [by try apply prefix_app_r
              | split; [rewrite ?length_app; simpl; lia |]]);
      try (intros path; by apply Hsame).
    intros path. rewrite (documents_insert path _ _ w w' Hfs).
    destruct (decide (path = collection s)) as [-> | Hne].
    + split; [by apply prefix_app_r |].
      split; [rewrite length_app; simpl; lia | done].
    + split; [done |]. split; [lia | done].
  - cbn [snd]. split; [done |]. split; [lia |].
    intros path. split; [done |]. split; [lia | done].
Qed.

End Invariants.

(** ** The record, read back *)

Section Records.

Context `{Platform}.

(** X9.  Nothing is deduplicated: when the same valid submission is run
    twice in a row and both runs succeed, the service's collection ends
    with two documents, one per run, which agree on every required field;
    and the bucket has gained six objects. *)
Theorem resubmission_adds_second_record (s : Service) (req : Request)
    (w w1 w2 : World) (r1 r2 : Response) (evs1 evs2 : list Event) :
  Forall (supplied req) (requiredFields s) ->
  Forall (passes req) (requiredFiles s) ->
  submit s req w = (r1, w1) ->
  submit s req w1 = (r2, w2) ->
  trace w1 = trace w ++ evs1 ->
  trace w2 = trace w1 ++ evs2 ->
  existsb isFailure evs1 = false ->
  existsb isFailure evs2 = false ->
  exists doc1 doc2,
    documents (collection s) w2
    = documents (collection s) w ++ [doc1; doc2]
    /\ (forall k, k ∈ requiredFields s -> doc1 !! k = doc2 !! k)
    /\ length (storage w2) = length (storage w) + 6.
Proof.
  intros Hfields Hfiles Hrun1 Hrun2 Ht1 Ht2 Hok1 Hok2.
  destruct (submit_runs s req w w1 r1 Hfields Hfiles Hrun1)
    as (f1 & f2 & f3 & Hheld & HRun1).
  destruct (submit_runs s req w1 w2 r2 Hfields Hfiles Hrun2)
    as (g1 & g2 & g3 & Hheld' & HRun2).
  destruct (faultless_run _ _ _ _ _ _ _ _ _ HRun1 Ht1 Hok1)
    as (_ & Hst1 & Hfs1 & _).
  destruct (faultless_run _ _ _ _ _ _ _ _ _ HRun2 Ht2 Hok2)
    as (_ & Hst2 & Hfs2 & _).
  eexists; eexists. split; [| split].
  - unfold documents at 1. rewrite Hfs2, lookup_insert_eq. simpl.
    unfold documents at 1. rewrite Hfs1, lookup_insert_eq. simpl.
    by rewrite <- app_assoc.
  - intros k Hk. rewrite !lookup_fmap, !record_field by done.
    assert (supplied req k) as (text & Htext & _)
      by (revert k Hk; by apply Forall_forall).
    unfold field. by rewrite Htext.
  - rewrite Hst2, Hst1, !length_app. simpl. lia.
Qed.

End Records.

Lemma resubmission_adds_second_record_sample :
  exists doc1 doc2,
    documents (collection Research)
      (snd (@submit Sample.reliable Research Sample.research15
              (snd (@submit Sample.reliable Research Sample.research15
                      Sample.startup))))
    = documents (collection Research) Sample.startup ++ [doc1; doc2]
    /\ (forall k, k ∈ requiredFields Research -> doc1 !! k = doc2 !! k)
    /\ length
         (storage
            (snd (@submit Sample.reliable Research Sample.research15
                    (snd (@submit Sample.reliable Research Sample.research15
                            Sample.startup)))))
       = length (storage Sample.startup) + 6.
Proof.
  apply (@resubmission_adds_second_record Sample.reliable Research
           Sample.research15 Sample.startup
           (snd (@submit Sample.reliable Research Sample.research15
                   Sample.startup))
           (snd (@submit Sample.reliable Research Sample.research15
                   (snd (@submit Sample.reliable Research Sample.research15
                           Sample.startup))))
           (fst (@submit Sample.reliable Research Sample.research15
                   Sample.startup))
           (fst (@submit Sample.reliable Research Sample.research15
                   (snd (@submit Sample.reliable Research Sample.research15
                           Sample.startup))))
           (trace (snd (@submit Sample.reliable Research Sample.research15
                          Sample.startup)))
           (drop 14
              (trace
                 (snd (@submit Sample.reliable Research Sample.research15
                         (snd (@submit Sample.reliable Research
                                 Sample.research15 Sample.startup))))))).
  - exact research15_fields.
  - exact research15_files.
  - apply surjective_pairing.
  - apply surjective_pairing.
  - reflexivity.
  - vm_compute. reflexivity.
  - vm_compute. reflexivity.
  - vm_compute. reflexivity.
Defined.

(** ** What the validators look at, and what they do not *)




(** ** The handlers on their own *)

Section Handlers.

Context `{Platform}.

(** X12.  A handler run on a request in which none of the three slots is
    present does not touch the bucket and draws no identifier; if it
    answers 200, the document it added has [null] under each of its three
    URL fields. *)
Theorem handler_stores_null_for_absent_slots (s : Service) (req : Request)
    (w : World) :
  (forall slot, slot ∈ requiredFiles s -> files req !! slot = None) ->
  match handler s req w with
  | (resp, w') =>
      storage w' = storage w
      /\ uuids_drawn w' = uuids_drawn w
      /\ (resp = saved ->
          exists doc,
            documents (collection s) w'
            = documents (collection s) w ++ [doc]
            /\ forall k, k ∈ urlFields s -> doc !! k = Some DNull)
  end.
Proof.
  intros Habsent.
  assert (exists s1 s2 s3, requiredFiles s = [s1; s2; s3])
    as (s1 & s2 & s3 & Hs) by (destruct s; by eexists _, _, _).
  assert (handler s req w
          = answer (add (collection s) (record s req [DNull; DNull; DNull]))
              w) as ->.
  { destruct s; injection Hs as <- <- <-;
      unfold handler, penelitianHandler, magangHandler, answer, mbind,
        async_bind, uploadSlot;
      rewrite !Habsent
        by (simpl; repeat first [apply list_elem_of_here
                                | apply list_elem_of_further]);
      reflexivity. }
  unfold answer, add.
  destruct (add_fault _ _ _) as [err|]; cbn.
  - repeat split; [done..|]. discriminate.
  - repeat split; [done..|]. intros _. eexists. split.
    + unfold documents at 1. cbn. by rewrite lookup_insert_eq.
    + intros k Hk. rewrite lookup_fmap.
      destruct (record_url s req DNull DNull DNull k Hk) as (u & Hu & ->).
      repeat (apply elem_of_cons in Hu as [-> | Hu]; [done |]).
      by apply elem_of_nil in Hu.
Qed.

Lemma upload_undefined (w : World) :
  uploadFileToFirebase None w
  = (Rejected undefinedFile,
     emit (ConsoleError "Error uploading file to Firebase:" undefinedFile)
       (emit (UuidDrawn (uuidv4 (uuids_drawn w))) (draw w))).
Proof. reflexivity. Qed.

(** X13.  A handler run on a request in which some required slot is an
    empty array answers 500 and adds no document: the upload helper is
    handed [undefined] for that slot and rejects, unless an earlier upload
    has failed already. *)
Theorem handler_fails_on_empty_slot (s : Service) (req : Request)
    (w : World) :
  (exists slot, slot ∈ requiredFiles s /\ files req !! slot = Some []) ->
  fst (handler s req w) = failed
  /\ firestore (snd (handler s req w)) = firestore w.
Proof.
  intros (slot & Hin & Hempty).
  destruct s; simpl in Hin;
    repeat (apply elem_of_cons in Hin as [-> | Hin]);
    try (by apply elem_of_nil in Hin);
    unfold handler, penelitianHandler, magangHandler, answer, uploadSlot;
    rewrite ?Hempty;
    repeat match goal with
           | |- context [files req !! ?k] =>
               destruct (files req !! k) as [[|? ?]|]
           end;
    unfold mbind, async_bind;
    repeat first
      [ progress cbn [head mret async_ret fst snd]
      | rewrite upload_undefined
      | match goal with
        | |- context [uploadFileToFirebase (Some ?f) ?w0] =>
            let U := fresh "U" in
            pose proof (upload_spec f w0) as U;
            destruct (uploadFileToFirebase (Some f) w0) as [[? | ?] ?];
            destruct_and?
        end ];
    (split; [reflexivity |]);
    cbn [firestore emit draw]; congruence.
Qed.

End Handlers.

Lemma handler_stores_null_for_absent_slots_sample :
  match @handler Sample.reliable Research
          (mkRequest (body Sample.research15) ∅) Sample.startup with
  | (resp, w') =>
      storage w' = storage Sample.startup
      /\ uuids_drawn w' = uuids_drawn Sample.startup
      /\ (resp = saved ->
          exists doc,
            documents (collection Research) w'
            = documents (collection Research) Sample.startup ++ [doc]
            /\ forall k, k ∈ urlFields Research -> doc !! k = Some DNull)
  end.
Proof.
  apply (@handler_stores_null_for_absent_slots Sample.reliable Research
           (mkRequest (body Sample.research15) ∅) Sample.startup).
  intros slot _. reflexivity.
Defined.

Lemma handler_fails_on_empty_slot_sample :
  fst (@handler Sample.reliable Research
         (mkRequest (body Sample.research15)
            (<[ "ktpFile" := [] ]> Sample.researchFiles)) Sample.startup)
  = failed
  /\ firestore
       (snd (@handler Sample.reliable Research
               (mkRequest (body Sample.research15)
                  (<[ "ktpFile" := [] ]> Sample.researchFiles))
               Sample.startup))
     = firestore Sample.startup.
Proof.
  apply (@handler_fails_on_empty_slot Sample.reliable Research).
  exists "ktpFile". split.
  - do 2 apply list_elem_of_further. apply list_elem_of_here.
  - reflexivity.
Defined.

(** ** Runs, once more *)

Section Outcomes.

Context `{Platform}.

Ltac events Ht :=
  match type of Ht with
  | trace ?w' = trace ?w ++ ?evs =>
      match goal with
      | Hr : trace w' = trace w ++ _ |- _ =>
          rewrite Hr in Ht; apply app_inv_head in Ht; subst evs
      end
  end.

(** X14.  A failed run on a validated submission ends by logging its
    cause: the last event of the run is the handler's [console.error] of
    the very error with which the failing stream or the rejected [add]
    ended. *)
Theorem failed_run_logs_its_cause (s : Service) (req : Request)
    (w w' : World) (resp : Response) (evs : list Event) :
  Forall (supplied req) (requiredFields s) ->
  Forall (passes req) (requiredFiles s) ->
  submit s req w = (resp, w') ->
  trace w' = trace w ++ evs ->
  existsb isFailure evs = true ->
  exists err,
    last evs = Some (ConsoleError EmptyString err)
    /\ ((exists name, StreamFailed name err ∈ evs)
        \/ exists doc, AddRejected (collection s) err ∈ evs
                       /\ AddCalled (collection s) doc ∈ evs).
Proof.
  intros Hfields Hfiles Hrun Ht Hko.
  destruct (submit_runs s req w w' resp Hfields Hfiles Hrun)
    as (f1 & f2 & f3 & _ & HRun).
  destruct HRun; events Ht; try discriminate Hko;
    exists err; (split; [reflexivity |]).
  - left. eexists. do 3 apply list_elem_of_further. apply list_elem_of_here.
  - left. eexists. do 7 apply list_elem_of_further. apply list_elem_of_here.
  - left. eexists. do 11 apply list_elem_of_further. apply list_elem_of_here.
  - right. eexists. split.
    + do 13 apply list_elem_of_further. apply list_elem_of_here.
    + do 12 apply list_elem_of_further. apply list_elem_of_here.
Qed.

(** X15.  In the record of a successful run the URL fields are not mixed
    up: for each required slot, taken with the URL field of the same
    position, the bucket holds an object with the bytes and the declared
    type of the slot's file, and the URL field is the public URL of that
    object. *)
Theorem url_fields_point_to_their_files (s : Service) (req : Request)
    (w w' : World) (resp : Response) (evs : list Event) :
  Forall (supplied req) (requiredFields s) ->
  Forall (passes req) (requiredFiles s) ->
  submit s req w = (resp, w') ->
  trace w' = trace w ++ evs ->
  existsb isFailure evs = false ->
  exists doc,
    documents (collection s) w' = documents (collection s) w ++ [doc]
    /\ Forall2
         (fun slot url =>
            exists f b,
              holds req slot f
              /\ b ∈ storage w'
              /\ contents b = buffer f
              /\ contentType b = mimetype f
              /\ doc !! url = Some (DString (publicUrl (blob_name b))))
         (requiredFiles s) (urlFields s).
Proof.
  intros Hfields Hfiles Hrun Ht Hok.
  destruct (submit_runs s req w w' resp Hfields Hfiles Hrun)
    as (f1 & f2 & f3 & Hheld & HRun).
  destruct (faultless_run _ _ _ _ _ _ _ _ _ HRun Ht Hok)
    as (_ & Hst & Hfs & _).
  eexists. split.
  { unfold documents at 1. rewrite Hfs. by rewrite lookup_insert_eq. }
  assert (forall k u,
            (k, DString u) ∈ zip (urlFields s)
                               [ DString (urlFor (uuids_drawn w) f1);
                                 DString (urlFor (1 + uuids_drawn w) f2);
                                 DString (urlFor (2 + uuids_drawn w) f3) ] ->
            (commit (now w) <$>
             record s req
               [ DString (urlFor (uuids_drawn w) f1);
                 DString (urlFor (1 + uuids_drawn w) f2);
                 DString (urlFor (2 + uuids_drawn w) f3) ]) !! k
            = Some (DString u)) as Hurl.
  { intros k u Hin. rewrite lookup_fmap.
    rewrite (record_lookup s req _ _ _ k (DString u)); [done |].
    apply elem_of_app. right. apply elem_of_app. by left. }
  destruct s; simpl in Hheld;
    apply Forall2_cons in Hheld as [H1 Hheld];
    apply Forall2_cons in Hheld as [H2 Hheld];
    apply Forall2_cons in Hheld as [H3 _];
    repeat apply Forall2_cons_2; try apply Forall2_nil_2.
  all: [> exists f1, (objectFor (uuids_drawn w) f1)
        | exists f2, (objectFor (1 + uuids_drawn w) f2)
        | exists f3, (objectFor (2 + uuids_drawn w) f3)
        | exists f1, (objectFor (uuids_drawn w) f1)
        | exists f2, (objectFor (1 + uuids_drawn w) f2)
        | exists f3, (objectFor (2 + uuids_drawn w) f3) ].
  all: (split; [assumption |]);
    (split; [rewrite Hst; apply elem_of_app; right;
             repeat first [apply list_elem_of_here
                          | apply list_elem_of_further] |]);
    repeat (split; [reflexivity |]);
    apply Hurl; cbn;
    repeat first [apply list_elem_of_here | apply list_elem_of_further].
Qed.

End Outcomes.

Lemma failed_run_logs_its_cause_sample :
  exists err,
    last (trace (snd (@submit Sample.secondWriteFails Research
                        Sample.research15 Sample.startup)))
    = Some (ConsoleError EmptyString err)
    /\ ((exists name,
           StreamFailed name err
           ∈ trace (snd (@submit Sample.secondWriteFails Research
                           Sample.research15 Sample.startup)))
        \/ exists doc,
             AddRejected (collection Research) err
             ∈ trace (snd (@submit Sample.secondWriteFails Research
                             Sample.research15 Sample.startup))
             /\ AddCalled (collection Research) doc
                ∈ trace (snd (@submit Sample.secondWriteFails Research
                                Sample.research15 Sample.startup))).
Proof.
  apply (@failed_run_logs_its_cause Sample.secondWriteFails Research
           Sample.research15 Sample.startup
           (snd (@submit Sample.secondWriteFails Research Sample.research15
                   Sample.startup))
           (fst (@submit Sample.secondWriteFails Research Sample.research15
                   Sample.startup))).
  - exact research15_fields.
  - exact research15_files.
  - apply surjective_pairing.
  - reflexivity.
  - vm_compute. reflexivity.
Defined.

Lemma url_fields_point_to_their_files_sample :
  exists doc,
    documents (collection Research)
      (snd (@submit Sample.reliable Research Sample.research15
              Sample.startup))
    = documents (collection Research) Sample.startup ++ [doc]
    /\ Forall2
         (fun slot url =>
            exists f b,
              holds Sample.research15 slot f
              /\ b ∈ storage (snd (@submit Sample.reliable Research
                                     Sample.research15 Sample.startup))
              /\ contents b = buffer f
              /\ contentType b = mimetype f
              /\ doc !! url
                 = Some (DString (@publicUrl Sample.reliable (blob_name b))))
         (requiredFiles Research) (urlFields Research).
Proof.
  apply (@url_fields_point_to_their_files Sample.reliable Research
           Sample.research15 Sample.startup _
           (fst (@submit Sample.reliable Research Sample.research15
                   Sample.startup))
           (trace (snd (@submit Sample.reliable Research Sample.research15
                          Sample.startup)))).
  - exact research15_fields.
  - exact research15_files.
  - apply surjective_pairing.
  - reflexivity.
  - vm_compute. reflexivity.
Defined.

(** * The routes as express runs them *)

Section ExpressRoutes.

Context `{Platform}.

Lemma submit_serve (s : Service) (post : Express.Post) (w : World) :
  Express.submit s post w
  = Express.serve s (Express.uploadFields (Express.fieldsOf s) post) w.
Proof. by destruct s. Qed.

Lemma express_requireFields_verdict (fields : list string)
    (req : Express.Req) :
  (Express.requireFields fields req = Next
   /\ Forall (fun k => Express.falsy (Express.body req !! k) = false) fields)
  \/ exists k,
       k ∈ fields
       /\ Express.falsy (Express.body req !! k) = true
       /\ Express.requireFields fields req
          = Respond (mkResponse 400 (k +:+ " is required")).
Proof.
  induction fields as [|k fields IH]; simpl.
  - left. by split.
  - destruct (Express.falsy (Express.body req !! k)) eqn:Hk.
    + right. exists k. split; [apply list_elem_of_here | done].
    + destruct IH as [[-> Hall] | (k' & Hin & Hk' & ->)].
      * left. split; [done | by constructor].
      * right. exists k'. split; [by apply list_elem_of_further | done].
Qed.

Lemma express_slot_passes_or_fails (parsed : gmap string (list File))
    (slot : string) :
  Express.slotPasses parsed slot \/ Express.slotFails parsed slot.
Proof.
  unfold Express.slotPasses, Express.slotFails.
  destruct (parsed !! slot) as [[|f rest]|]; [by auto | | by auto].
  destruct (includes allowedMimeTypes (mimetype f)) eqn:Hm.
  - apply includes_allowed in Hm. left. by exists f, rest.
  - right. right. right. exists f, rest. split; [done |].
    intros Ha%includes_allowed. congruence.
Qed.

Lemma express_slot_passes_not_fails (parsed : gmap string (list File))
    (slot : string) :
  Express.slotPasses parsed slot -> ~ Express.slotFails parsed slot.
Proof.
  intros (f & rest & Hf & Ha) [Hn | [Hn | (f' & rest' & Hf' & Hna)]];
    [congruence | congruence |].
  rewrite Hf in Hf'. injection Hf' as <- _. done.
Qed.

Lemma express_requireFiles_verdict (slots : list string) (req : Express.Req)
    (parsed : gmap string (list File)) :
  Express.files req = Some parsed ->
  (Express.requireFiles slots req = Express.Passed
   /\ Forall (Express.slotPasses parsed) slots)
  \/ exists slot msg,
       slot ∈ slots
       /\ Express.slotFails parsed slot
       /\ Express.requireFiles slots req
          = Express.Answered (mkResponse 400 msg).
Proof.
  intros Hfiles. induction slots as [|slot slots IH]; simpl.
  - left. by split.
  - rewrite Hfiles.
    destruct (parsed !! slot) as [[|f rest]|] eqn:Hslot.
    + right. eexists slot, _. split; [apply list_elem_of_here |].
      split; [| done]. right. by left.
    + destruct (includes allowedMimeTypes (mimetype f)) eqn:Hm.
      * apply includes_allowed in Hm.
        destruct IH as [[-> Hall] | (slot' & msg & Hin & Hfails & ->)].
        -- left. split; [done |]. constructor; [| done]. by exists f, rest.
        -- right. exists slot', msg.
           split; [by apply list_elem_of_further | done].
      * right. eexists slot, _. split; [apply list_elem_of_here |].
        split; [| done]. right. right. exists f, rest. split; [done |].
        intros Ha%includes_allowed. congruence.
    + right. eexists slot, _. split; [apply list_elem_of_here |].
      split; [| done]. by left.
Qed.

Lemma express_requireFiles_undefined (slot : string) (slots : list string)
    (req : Express.Req) :
  Express.files req = None ->
  Express.requireFiles (slot :: slots) req
  = Express.Threw (Express.cannotRead slot).
Proof. intros Hfiles. simpl. by rewrite Hfiles. Qed.

Lemma express_validateForm_verdict (s : Service) (req : Express.Req) :
  (Express.validateForm s req = Next
   /\ Forall (fun k => Express.falsy (Express.body req !! k) = false)
        (requiredFields s))
  \/ exists k,
       k ∈ requiredFields s
       /\ Express.falsy (Express.body req !! k) = true
       /\ Express.validateForm s req
          = Respond (mkResponse 400 (k +:+ " is required")).
Proof. destruct s; apply express_requireFields_verdict. Qed.

Lemma express_validateFiles_verdict (s : Service) (req : Express.Req)
    (parsed : gmap string (list File)) :
  Express.files req = Some parsed ->
  (Express.validateFiles s req = Express.Passed
   /\ Forall (Express.slotPasses parsed) (requiredFiles s))
  \/ exists slot msg,
       slot ∈ requiredFiles s
       /\ Express.slotFails parsed slot
       /\ Express.validateFiles s req
          = Express.Answered (mkResponse 400 msg).
Proof. destruct s; apply express_requireFiles_verdict. Qed.

Lemma express_validateFiles_undefined (s : Service) (req : Express.Req) :
  Express.files req = None ->
  exists slot, Express.validateFiles s req
               = Express.Threw (Express.cannotRead slot).
Proof.
  intros Hfiles. destruct s; eexists;
    by apply express_requireFiles_undefined.
Qed.

End ExpressRoutes.

Section ExpressHandlers.

Context `{Platform}.

Lemma express_uploadSlot_holds (req : Express.Req)
    (parsed : gmap string (list File)) (slot : string) (f : File)
    (rest : list File) (w : World) :
  Express.files req = Some parsed ->
  parsed !! slot = Some (f :: rest) ->
  Express.uploadSlot req slot w
  = match uploadFileToFirebase (Some f) w with
    | (Resolved url, w') => (Resolved (DString url), w')
    | (Rejected err, w') => (Rejected err, w')
    end.
Proof.
  intros Hfiles Hslot. unfold Express.uploadSlot. by rewrite Hfiles, Hslot.
Qed.

Ltac step_upload E :=
  match type of E with
  | context [Express.uploadSlot ?req ?slot ?w] =>
      match goal with
      | Hfiles : Express.files req = Some ?parsed,
        Hslot : ?parsed !! slot = Some (?f :: ?rest) |- _ =>
          rewrite (express_uploadSlot_holds req parsed slot f rest w
                     Hfiles Hslot) in E;
          let U := fresh "U" in
          pose proof (upload_spec f w) as U;
          destruct (uploadFileToFirebase (Some f) w) as [[? | ?] ?];
          destruct U as (? & ? & ? & ? & ?); try destruct_and?; subst
      end
  end.

Ltac step_add E :=
  match type of E with
  | context [add ?path ?doc ?w] =>
      let A := fresh "A" in
      pose proof (add_spec path doc w) as A;
      destruct (add path doc w) as [[? | ?] ?];
      destruct A as (? & ? & ?)
  end.

Ltac chase :=
  unfold documents in *;
  cbn [storage firestore trace now uuids_drawn emit];
  repeat match goal with
         | Heq : _ = _ |- _ => rewrite Heq; clear Heq
         end;
  rewrite <- ?app_assoc.

(** A handler run on a request whose three slots hold files either
    answers 200, having stored three objects and added one document, or
    answers 500, having added none. *)
Lemma express_handler_outcome (s : Service) (req : Express.Req)
    (parsed : gmap string (list File)) (w w' : World) (resp : Response) :
  Express.files req = Some parsed ->
  Forall (Express.slotPasses parsed) (requiredFiles s) ->
  Express.handler s req w = (resp, w') ->
  (resp = saved
   /\ length (storage w') = length (storage w) + 3
   /\ exists u1 u2 u3,
        firestore w'
        = <[ collection s :=
               documents (collection s) w
               ++ [ commit (now w) <$>
                    Express.record s req
                      [DString u1; DString u2; DString u3] ] ]>
            (firestore w))
  \/ (resp = failed /\ firestore w' = firestore w).
Proof.
  intros Hfiles Hpass E.
  destruct s; simpl in Hpass;
    apply Forall_cons in Hpass as [(f1 & r1 & H1 & _) Hpass];
    apply Forall_cons in Hpass as [(f2 & r2 & H2 & _) Hpass];
    apply Forall_cons in Hpass as [(f3 & r3 & H3 & _) _];
    unfold Express.handler, Express.penelitianHandler,
      Express.magangHandler, answer, mbind, async_bind, mret,
      async_ret in E;
    repeat step_upload E; try step_add E;
    injection E as <- <-;
    first [ solve [right; split; [reflexivity | chase; reflexivity]]
          | left; split; [reflexivity |]; split;
            [ chase; rewrite !length_app; simpl; lia
            | eexists _, _, _; chase; reflexivity ] ].
Qed.

End ExpressHandlers.

(** ** Parsed submissions of string fields *)

Section Plain.

Context `{Platform}.

Lemma plain_falsy (req : Request) (k : string) :
  Express.falsy (Express.body (plain req) !! k) = falsy (body req !! k).
Proof.
  unfold plain. cbn [Express.body]. rewrite lookup_fmap.
  destruct (body req !! k) as [v|]; simpl; [| done].
  apply negb_involutive.
Qed.

Lemma plain_requireFields (fields : list string) (req : Request) :
  Express.requireFields fields (plain req) = requireFields fields req.
Proof.
  induction fields as [|k fields IH];
    cbn [Express.requireFields requireFields]; [done |].
  by rewrite plain_falsy, IH.
Qed.

Lemma plain_requireFiles (slots : list string) (req : Request) :
  Express.requireFiles slots (plain req)
  = match requireFiles slots req with
    | Next => Express.Passed
    | Respond r => Express.Answered r
    end.
Proof.
  induction slots as [|slot slots IH]; simpl; [done |].
  destruct (files req !! slot) as [[|f rest]|]; [done | | done].
  by destruct (includes allowedMimeTypes (mimetype f)).
Qed.

Lemma plain_field (req : Request) (k : string) :
  Express.field (plain req) k = field req k.
Proof.
  unfold Express.field, field, plain. cbn [Express.body].
  rewrite lookup_fmap. by destruct (body req !! k).
Qed.

Lemma plain_uploadSlot (req : Request) (slot : string) :
  Express.uploadSlot (plain req) slot = uploadSlot req slot.
Proof. reflexivity. Qed.

Lemma plain_handler (s : Service) (req : Request) :
  Express.handler s (plain req) = handler s req.
Proof.
  destruct s;
    unfold Express.handler, handler, Express.penelitianHandler,
      penelitianHandler, Express.magangHandler, magangHandler;
    by rewrite !plain_field, !plain_uploadSlot.
Qed.

(** On a parsed submission of string fields, the chain that express runs
    after [upload.fields] is the pipeline of the first part. *)
Lemma plain_serve (s : Service) (req : Request) (w : World) :
  Express.serve s (Express.Arrived (plain req)) w = json (submit s req w).
Proof.
  rewrite submit_route. unfold Express.serve, Express.route, json. simpl.
  assert (Express.validateForm s (plain req) = validateForm s req) as ->
    by (destruct s; apply plain_requireFields).
  destruct (validateForm s req) as [|r]; [| done].
  assert (Express.validateFiles s (plain req)
          = match validateFiles s req with
            | Next => Express.Passed
            | Respond r => Express.Answered r
            end) as ->
    by (destruct s; apply plain_requireFiles).
  destruct (validateFiles s req) as [|r]; [| done].
  rewrite plain_handler. by destruct (handler s req w).
Qed.

End Plain.

(** ** A request through a route *)

Section ExpressProperties.

Context `{Platform}.

(** The four ways through the chain, once [upload.fields] has passed the
    request on. *)
Lemma serve_cases (s : Service) (req : Express.Req) (w : World) :
  (exists k,
     k ∈ requiredFields s
     /\ Express.falsy (Express.body req !! k) = true
     /\ Express.serve s (Express.Arrived req) w
        = (Express.Json (mkResponse 400 (k +:+ " is required")), w))
  \/ (Forall (fun k => Express.falsy (Express.body req !! k) = false)
        (requiredFields s)
      /\ ((Express.files req = None
           /\ exists slot,
                Express.serve s (Express.Arrived req) w
                = (Express.ErrorPage 500 (Express.cannotRead slot), w))
          \/ exists parsed,
               Express.files req = Some parsed
               /\ ((exists slot msg,
                      slot ∈ requiredFiles s
                      /\ Express.slotFails parsed slot
                      /\ Express.serve s (Express.Arrived req) w
                         = (Express.Json (mkResponse 400 msg), w))
                   \/ (Forall (Express.slotPasses parsed) (requiredFiles s)
                       /\ Express.serve s (Express.Arrived req) w
                          = json (Express.handler s req w))))).
Proof.
  unfold Express.serve, Express.route.
  destruct (express_validateForm_verdict s req)
    as [[-> Hfields] | (k & Hk & Hfalsy & ->)]; [right | left; by exists k].
  split; [done |].
  destruct (Express.files req) as [parsed|] eqn:Hfiles.
  - right. exists parsed. split; [done |].
    destruct (express_validateFiles_verdict s req parsed Hfiles)
      as [[-> Hslots] | (slot & msg & Hslot & Hfails & ->)].
    + right. split; [done |]. by destruct (Express.handler s req w).
    + left. by exists slot, msg.
  - left. split; [done |].
    destruct (express_validateFiles_undefined s req Hfiles) as [slot ->].
    by exists slot.
Qed.

Lemma falsy_not_all_truthy (req : Express.Req) (fields : list string) :
  Exists (fun k => Express.falsy (Express.body req !! k) = true) fields ->
  Forall (fun k => Express.falsy (Express.body req !! k) = false) fields ->
  False.
Proof.
  intros (k & Hk & Hfalsy)%Exists_exists Hall.
  rewrite Forall_forall in Hall. specialize (Hall k Hk). congruence.
Qed.

Lemma fails_not_all_pass (parsed : gmap string (list File))
    (slots : list string) :
  Exists (Express.slotFails parsed) slots ->
  Forall (Express.slotPasses parsed) slots ->
  False.
Proof.
  intros (slot & Hslot & Hfails)%Exists_exists Hall.
  rewrite Forall_forall in Hall.
  by apply (express_slot_passes_not_fails parsed slot (Hall slot Hslot)).
Qed.

(** The handler of a route, on a request whose slots all pass. *)
Lemma handler_cases (s : Service) (req : Express.Req)
    (parsed : gmap string (list File)) (w : World) :
  Express.files req = Some parsed ->
  Forall (Express.slotPasses parsed) (requiredFiles s) ->
  (fst (Express.handler s req w) = saved
   /\ length (storage (snd (Express.handler s req w)))
      = length (storage w) + 3
   /\ exists u1 u2 u3,
        firestore (snd (Express.handler s req w))
        = <[ collection s :=
               documents (collection s) w
               ++ [ commit (now w) <$>
                    Express.record s req
                      [DString u1; DString u2; DString u3] ] ]>
            (firestore w))
  \/ (fst (Express.handler s req w) = failed
      /\ firestore (snd (Express.handler s req w)) = firestore w).
Proof.
  intros Hfiles Hslots.
  by apply (express_handler_outcome s req parsed w _ _ Hfiles Hslots),
    surjective_pairing.
Qed.

Lemma express_record_lookup (s : Service) (req : Express.Req)
    (u1 u2 u3 : DocValue) (k : string) (v : DocValue) :
  (k, v) ∈ ((fun k => (k, Express.field req k)) <$> requiredFields s)
           ++ zip (urlFields s) [u1; u2; u3]
           ++ [ ("timestamp", DServerTimestamp) ] ->
  Express.record s req [u1; u2; u3] !! k = Some v.
Proof.
  intros Hin. unfold Express.record. apply elem_of_list_to_map_1; [| done].
  rewrite !fmap_app, <- list_fmap_compose.
  destruct s; apply (bool_decide_unpack _); by vm_compute.
Qed.

Lemma express_record_keys (s : Service) (req : Express.Req)
    (u1 u2 u3 : DocValue) :
  (((fun k => (k, Express.field req k)) <$> requiredFields s)
   ++ zip (urlFields s) [u1; u2; u3]
   ++ [ ("timestamp", DServerTimestamp) ]).*1
  = requiredFields s ++ urlFields s ++ ["timestamp"].
Proof. by destruct s. Qed.

Lemma express_field_truthy (req : Express.Req) (k : string) :
  Express.falsy (Express.body req !! k) = false ->
  exists v,
    Express.body req !! k = Some v
    /\ Express.truthy v = true
    /\ Express.field req k
       = match v with
         | JsString text => DString text
         | _ => DJs v
         end.
Proof.
  unfold Express.falsy, Express.field.
  destruct (Express.body req !! k) as [v|]; [| done].
  intros Htruthy%negb_false_iff. exists v. split; [done |]. split; [done |].
  by destruct v.
Qed.

Lemma express_requireFields_body (fields : list string)
    (req req' : Express.Req) :
  Express.body req = Express.body req' ->
  Express.requireFields fields req = Express.requireFields fields req'.
Proof.
  intros Hbody. induction fields as [|k fields IH]; simpl; [done |].
  by rewrite Hbody, IH.
Qed.

Lemma express_requireFiles_declared (slots : list string)
    (req req' : Express.Req) :
  slots <> [] ->
  Forall (fun slot =>
            (fun parsed => mimetype <$> (parsed !! slot ≫= head))
              <$> Express.files req
            = (fun parsed => mimetype <$> (parsed !! slot ≫= head))
                <$> Express.files req') slots ->
  Express.requireFiles slots req = Express.requireFiles slots req'.
Proof.
  intros Hne Hsame.
  destruct (Express.files req) as [parsed|] eqn:Hfiles,
    (Express.files req') as [parsed'|] eqn:Hfiles'.
  - clear Hne.
    induction Hsame as [|slot slots Hslot _ IH]; simpl; [done |].
    rewrite Hfiles, Hfiles'. simpl in Hslot. injection Hslot as Hslot.
    destruct (parsed !! slot) as [[|f r]|],
      (parsed' !! slot) as [[|f' r']|];
      simpl in Hslot; try discriminate Hslot; try done.
    injection Hslot as ->. by rewrite IH.
  - destruct Hsame as [|slot slots Hslot _]; [done | discriminate Hslot].
  - destruct Hsame as [|slot slots Hslot _]; [done | discriminate Hslot].
  - destruct slots as [|slot slots]; [done |].
    simpl. by rewrite Hfiles, Hfiles'.
Qed.

(** C1, as the code has it.  A request that [upload.fields] refuses (a
    file under a field name the route does not list, a second file for a
    slot, a file over the size limit, a body that cannot be parsed) is
    answered by express with status 500, and the world is left exactly as
    it was.  A request that [upload.fields] passes on and in which some
    required field is absent or falsy, or whose parsed file mapping has a
    required slot that is missing or of a type that is not allowed, is
    answered with status 400, and the world is left exactly as it was:
    nothing is written to the bucket, no document is added, no
    collaborator is even called.  Conversely, a run that changes the world
    in any way is the run of a request that [upload.fields] passed on with
    a parsed file mapping, in which every required field is truthy and
    every required slot passes. *)
Theorem invalid_post_changes_nothing (s : Service) (post : Express.Post)
    (w : World) :
  (forall err,
     Express.uploadFields (Express.fieldsOf s) post = Express.Refused err ->
     Express.submit s post w = (Express.ErrorPage 500 err, w))
  /\ (forall req,
        Express.uploadFields (Express.fieldsOf s) post = Express.Arrived req ->
        Exists (fun k => Express.falsy (Express.body req !! k) = true)
          (requiredFields s)
        \/ (exists parsed,
              Express.files req = Some parsed
              /\ Exists (Express.slotFails parsed) (requiredFiles s)) ->
        exists msg,
          Express.submit s post w = (Express.Json (mkResponse 400 msg), w))
  /\ (forall reply w',
        Express.submit s post w = (reply, w') -> w' <> w ->
        exists req parsed,
          Express.uploadFields (Express.fieldsOf s) post = Express.Arrived req
          /\ Express.files req = Some parsed
          /\ Forall (fun k => Express.falsy (Express.body req !! k) = false)
               (requiredFields s)
          /\ Forall (Express.slotPasses parsed) (requiredFiles s)).
Proof.
  rewrite submit_serve.
  destruct (Express.uploadFields (Express.fieldsOf s) post)
    as [err | req]; (split; [| split]).
  - by intros ? [= <-].
  - by intros ? [=].
  - by intros reply w' [= _ <-] Hchanged.
  - by intros ? [=].
  - intros ? [= <-] Hinvalid.
    destruct (serve_cases s req w)
      as [(k & _ & _ & ->)
         | (Hfields & [(Hnone & _)
                      | (parsed & Hsome
                         & [(slot & msg & _ & _ & ->) | (Hslots & _)])])];
      [by eexists | exfalso .. | by eexists | exfalso];
      destruct Hinvalid as [Hf | (parsed' & Hsome' & Hs)];
      try (by apply (falsy_not_all_truthy req _ Hf));
      try congruence.
    rewrite Hsome in Hsome'. injection Hsome' as <-.
    by apply (fails_not_all_pass parsed _ Hs).
  - intros reply w' Hrun Hchanged.
    destruct (serve_cases s req w)
      as [(k & _ & _ & Hserve)
         | (Hfields & [(Hnone & slot & Hserve)
                      | (parsed & Hsome
                         & [(slot & msg & _ & _ & Hserve) | (Hslots & _)])])];
      try (rewrite Hserve in Hrun; by injection Hrun as _ <-).
    by exists req, parsed.
Qed.

(** X6.  The answer tells what happened.  Either it is the 200 answer of
    the route, and then one document has been added to the service's
    collection and three objects to the bucket; or it is the 500 answer of
    the route, and then no document has been added; or it is a 400 answer
    of a validator, and then the world is as it was; or it is the error
    page of express with status 500 (for a request that [upload.fields]
    refuses or for which it leaves [req.files] undefined), and then the
    world is as it was. *)
Theorem reply_tells_outcome (s : Service) (post : Express.Post) (w : World) :
  match Express.submit s post w with
  | (reply, w') =>
      (reply = Express.Json (mkResponse 200 "Data berhasil disimpan")
       /\ length (storage w') = length (storage w) + 3
       /\ exists doc,
            firestore w'
            = <[ collection s := documents (collection s) w ++ [doc] ]>
                (firestore w))
      \/ (reply = Express.Json
                    (mkResponse 500 "Terjadi kesalahan saat menyimpan data")
          /\ firestore w' = firestore w)
      \/ (exists msg, reply = Express.Json (mkResponse 400 msg) /\ w' = w)
      \/ (exists err, reply = Express.ErrorPage 500 err /\ w' = w)
  end.
Proof.
  rewrite submit_serve.
  destruct (Express.uploadFields (Express.fieldsOf s) post) as [err | req];
    [right; right; right; by exists err |].
  destruct (serve_cases s req w)
    as [(k & _ & _ & ->)
       | (_ & [(_ & slot & ->)
              | (parsed & Hsome
                 & [(slot & msg & _ & _ & ->) | (Hslots & ->)])])];
    [right; right; left; by eexists
    | right; right; right; by eexists
    | right; right; left; by eexists |].
  unfold json.
  destruct (handler_cases s req parsed w Hsome Hslots)
    as [(-> & Hstorage & u1 & u2 & u3 & Hfs) | (-> & Hfs)].
  - left. split; [done |]. split; [done |]. by eexists.
  - right; left. by split.
Qed.

(** X7.  Field errors come before file errors.  When a required field of
    the body is absent or falsy, there is one such field that every
    request with this body is answered for, with status 400 and
    ["<field> is required"], as soon as [upload.fields] passes it on:
    whether the body is a multipart form or not, and whatever files it
    carries, which the validators do not look at.  Only the refusal of
    [upload.fields] itself, answered by express with status 500, comes
    before it. *)
Theorem field_errors_before_file_errors (s : Service)
    (fields : gmap string JsValue) (w : World) :
  Exists (fun k => Express.falsy (fields !! k) = true) (requiredFields s) ->
  exists k,
    k ∈ requiredFields s
    /\ Express.falsy (fields !! k) = true
    /\ forall post,
         Express.parsedBody post = fields ->
         match Express.uploadFields (Express.fieldsOf s) post with
         | Express.Refused err =>
             Express.submit s post w = (Express.ErrorPage 500 err, w)
         | Express.Arrived _ =>
             Express.submit s post w
             = (Express.Json (mkResponse 400 (k +:+ " is required")), w)
         end.
Proof.
  intros Hfalsy.
  destruct (express_validateForm_verdict s (Express.mkReq fields None))
    as [[_ Hall] | (k & Hk & Hk' & Hform)];
    [by destruct (falsy_not_all_truthy (Express.mkReq fields None) _
                    Hfalsy Hall) |].
  exists k. split; [done |]. split; [done |].
  intros post <-. rewrite submit_serve.
  destruct (Express.uploadFields (Express.fieldsOf s) post)
    as [err | req] eqn:Harrival; [done |].
  assert (Express.body req = Express.parsedBody post) as Hbody.
  { unfold Express.uploadFields in Harrival.
    destruct (Express.multipart post);
      [destruct (Express.parseFault post); [discriminate Harrival |];
       destruct (Express.acceptFiles _ _ _); [discriminate Harrival |] |];
      by injection Harrival as <-. }
  unfold Express.serve, Express.route.
  assert (Express.validateForm s req
          = Express.validateForm s
              (Express.mkReq (Express.parsedBody post) None)) as ->
    by (destruct s; by apply express_requireFields_body).
  by rewrite Hform.
Qed.

(** X8.  The document of a request answered with the 200 answer has
    exactly the keys of the schema: the required fields, the three URL
    fields and [timestamp].  A field of the request outside the schema is
    never stored.  Each required field holds the truthy value that the
    request carried for it, as it is: a string, or, for a field that was
    sent more than once or with brackets in its name, the array or object
    that [multer] made of it.  Each URL field holds a string, and
    [timestamp] the time of the server. *)
Theorem stored_record_has_schema_keys (s : Service) (post : Express.Post)
    (w w' : World) :
  Express.submit s post w = (Express.Json saved, w') ->
  exists req doc,
    Express.uploadFields (Express.fieldsOf s) post = Express.Arrived req
    /\ documents (collection s) w' = documents (collection s) w ++ [doc]
    /\ (forall k, is_Some (doc !! k)
                  <-> k ∈ requiredFields s ++ urlFields s ++ ["timestamp"])
    /\ (forall k, k ∈ requiredFields s ->
          exists v,
            Express.body req !! k = Some v
            /\ Express.truthy v = true
            /\ doc !! k = Some match v with
                               | JsString text => DString text
                               | _ => DJs v
                               end)
    /\ (forall k, k ∈ urlFields s ->
          exists url, doc !! k = Some (DString url))
    /\ doc !! "timestamp" = Some (DTimestamp (now w)).
Proof.
  rewrite submit_serve. intros Hrun.
  destruct (Express.uploadFields (Express.fieldsOf s) post) as [err | req];
    [discriminate Hrun |].
  destruct (serve_cases s req w)
    as [(k & _ & _ & Hserve)
       | (Hfields & [(Hnone & slot & Hserve)
                    | (parsed & Hsome
                       & [(slot & msg & _ & _ & Hserve)
                         | (Hslots & Hserve)])])];
    rewrite Hserve in Hrun; try discriminate Hrun.
  unfold json in Hrun. injection Hrun as Hresp <-.
  destruct (handler_cases s req parsed w Hsome Hslots)
    as [(_ & _ & u1 & u2 & u3 & Hfs) | (Hfailed & _)];
    [| rewrite Hfailed in Hresp; discriminate Hresp].
  exists req. eexists. split; [done |].
  split; [| split; [| split; [| split]]].
  - unfold documents at 1. rewrite Hfs. by rewrite lookup_insert_eq.
  - intros k. rewrite lookup_fmap, fmap_is_Some.
    rewrite <- elem_of_dom. unfold Express.record.
    rewrite dom_list_to_map_L, elem_of_list_to_set.
    by rewrite express_record_keys.
  - intros k Hk.
    assert (Express.falsy (Express.body req !! k) = false) as Htruthy
      by (revert k Hk; by apply Forall_forall).
    destruct (express_field_truthy req k Htruthy)
      as (v & Hv & Hvt & Hfield).
    exists v. split; [done |]. split; [done |].
    rewrite lookup_fmap,
      (express_record_lookup s req _ _ _ k (Express.field req k)).
    + rewrite Hfield. by destruct v.
    + apply elem_of_app. left.
      by apply (list_elem_of_fmap_2 (fun k => (k, Express.field req k))).
  - intros k Hk.
    assert (exists u,
              (k, DString u)
              ∈ zip (urlFields s) [DString u1; DString u2; DString u3])
      as [u Hu].
    { destruct s; simpl in *;
        repeat (apply elem_of_cons in Hk as [-> | Hk];
                [eexists; cbn; solve [repeat first [left | right]] |]);
        by apply elem_of_nil in Hk. }
    exists u. rewrite lookup_fmap,
      (express_record_lookup s req _ _ _ k (DString u)); [done |].
    apply elem_of_app. right. apply elem_of_app. by left.
  - rewrite lookup_fmap,
      (express_record_lookup s req _ _ _ "timestamp" DServerTimestamp);
      [done |].
    apply elem_of_app. right. apply elem_of_app. right. left.
Qed.

(** X11.  File validation reads whether [req.files] is defined and, of each
    required slot, whether it holds a file and the declared type of the
    first one, and nothing else: two requests that agree on that get the
    same verdict (the same answer, or the same exception), whatever the
    names and bytes of the files, the further files of a slot, the other
    slots and the fields. *)
Theorem file_verdict_reads_declared_type_only (s : Service)
    (req req' : Express.Req) :
  Forall (fun slot =>
            (fun parsed => mimetype <$> (parsed !! slot ≫= head))
              <$> Express.files req
            = (fun parsed => mimetype <$> (parsed !! slot ≫= head))
                <$> Express.files req')
    (requiredFiles s) ->
  Express.validateFiles s req = Express.validateFiles s req'.
Proof.
  intros Hsame. destruct s; by apply express_requireFiles_declared.
Qed.

End ExpressProperties.

(** On a parsed file mapping, the file validator is the one of the first
    part, whatever the body. *)
Lemma express_validateFiles_parsed (s : Service) (req : Express.Req)
    (parsed : gmap string (list File)) :
  Express.files req = Some parsed ->
  Express.validateFiles s req
  = match validateFiles s (mkRequest ∅ parsed) with
    | Next => Express.Passed
    | Respond r => Express.Answered r
    end.
Proof.
  intros Hfiles.
  assert (forall slots,
            Express.requireFiles slots req
            = match requireFiles slots (mkRequest ∅ parsed) with
              | Next => Express.Passed
              | Respond r => Express.Answered r
              end) as Hloop.
  { induction slots as [|slot slots IH]; simpl; [done |].
    rewrite Hfiles.
    destruct (parsed !! slot) as [[|f rest]|]; [done | | done].
    by destruct (includes allowedMimeTypes (mimetype f)). }
  destruct s; apply Hloop.
Qed.

(** ** A body that is not a multipart form *)

(** C3, at a request whose body is not a multipart form.  [multer] passes
    such a request on with [req.files] undefined.  The file validator of
    either service then throws on reading its first slot, where on an
    empty file mapping it answers 400 with ["File <slot> is required"];
    and a request with every required field, sent as JSON to either route
    of a platform that never fails, is answered by express with status 500
    and its error page. *)
Theorem file_validator_throws_without_files :
  (forall fields : gmap string JsValue,
     Express.validateResearchFiles (Express.mkReq fields None)
     = Express.Threw (Express.cannotRead "suratPengantarFile")
     /\ Express.validateInternshipFiles (Express.mkReq fields None)
        = Express.Threw (Express.cannotRead "suratPermohonanFile")
     /\ Express.validateResearchFiles (Express.mkReq fields (Some ∅))
        = Express.Answered
            (mkResponse 400 "File suratPengantarFile is required")
     /\ Express.validateInternshipFiles (Express.mkReq fields (Some ∅))
        = Express.Answered
            (mkResponse 400 "File suratPermohonanFile is required"))
  /\ Express.uploadFields (Express.fieldsOf Research) Posts.researchAsJson
     = Express.Arrived (Express.mkReq Posts.fifteen None)
  /\ Express.validateResearchForm (Express.mkReq Posts.fifteen None) = Next
  /\ @Express.post_api_penelitian Sample.reliable Posts.researchAsJson
       Sample.startup
     = (Express.ErrorPage 500 (Express.cannotRead "suratPengantarFile"),
        Sample.startup)
  /\ @Express.post_api_magang Sample.reliable Posts.internshipAsJson
       Sample.startup
     = (Express.ErrorPage 500 (Express.cannotRead "suratPermohonanFile"),
        Sample.startup).
Proof.
  split; [intros fields; repeat split |]; by vm_compute.
Qed.

(** ** A form with a file that the route does not expect *)

(** The form [Posts.strayFile] lacks the required field [letterNumber] and
    carries a file under the field name [foto].  [upload.fields] refuses
    it before a validator runs: on a platform that never fails the answer
    is the error page of express with status 500, not status 400. *)
Lemma missing_field_behind_unexpected_file :
  Exists (fun k => Express.falsy (Express.parsedBody Posts.strayFile !! k)
                   = true)
    (requiredFields Research)
  /\ Express.uploadFields (Express.fieldsOf Research) Posts.strayFile
     = Express.Refused Express.unexpectedField
  /\ @Express.post_api_penelitian Sample.reliable Posts.strayFile
       Sample.startup
     = (Express.ErrorPage 500 Express.unexpectedField, Sample.startup)
  /\ ~ (exists msg w',
          @Express.post_api_penelitian Sample.reliable Posts.strayFile
            Sample.startup
          = (Express.Json (mkResponse 400 msg), w')).
Proof.
  split; [| split; [| split]].
  - apply Exists_exists. exists "letterNumber". split; [left |].
    by vm_compute.
  - by vm_compute.
  - by vm_compute.
  - intros (msg & w' & Hrun). vm_compute in Hrun. discriminate Hrun.
Qed.

Lemma exe_fails_proposal_part :
  Exists (Express.slotFails (list_to_map ((fun p => (p.1, [p.2]))
                                            <$> Posts.exeFiles)))
    (requiredFiles Research).
Proof.
  apply Exists_exists. exists "proposalFile". split.
  - apply list_elem_of_further, list_elem_of_here.
  - right. right. exists Sample.program, []. split; [by vm_compute |].
    intros [Hm | [Hm | Hm]]; discriminate Hm.
Defined.

Lemma invalid_post_changes_nothing_sample :
  exists msg,
    @Express.submit Sample.reliable Research Posts.exeProposal Sample.startup
    = (Express.Json (mkResponse 400 msg), Sample.startup).
Proof.
  apply (proj1 (proj2 (@invalid_post_changes_nothing Sample.reliable Research
                         Posts.exeProposal Sample.startup))
           (Express.mkReq Posts.fifteen
              (Some (list_to_map ((fun p => (p.1, [p.2]))
                                    <$> Posts.exeFiles))))).
  - vm_compute. reflexivity.
  - right. eexists. split; [reflexivity |]. exact exe_fails_proposal_part.
Defined.

Lemma field_errors_before_file_errors_sample :
  exists k,
    k ∈ requiredFields Research
    /\ Express.falsy (Express.parsedBody Posts.noLetterNumber !! k) = true
    /\ forall post,
         Express.parsedBody post = Express.parsedBody Posts.noLetterNumber ->
         match Express.uploadFields (Express.fieldsOf Research) post with
         | Express.Refused err =>
             @Express.submit Sample.reliable Research post Sample.startup
             = (Express.ErrorPage 500 err, Sample.startup)
         | Express.Arrived _ =>
             @Express.submit Sample.reliable Research post Sample.startup
             = (Express.Json (mkResponse 400 (k +:+ " is required")),
                Sample.startup)
         end.
Proof.
  apply (@field_errors_before_file_errors Sample.reliable Research
           (Express.parsedBody Posts.noLetterNumber) Sample.startup).
  apply Exists_exists. exists "letterNumber". split; [left |].
  vm_compute. reflexivity.
Defined.

Lemma stored_record_has_schema_keys_sample :
  exists req doc,
    Express.uploadFields (Express.fieldsOf Research) Posts.repeatedField
    = Express.Arrived req
    /\ documents (collection Research)
         (snd (@Express.submit Sample.reliable Research Posts.repeatedField
                 Sample.startup))
       = documents (collection Research) Sample.startup ++ [doc]
    /\ (forall k, is_Some (doc !! k)
                  <-> k ∈ requiredFields Research ++ urlFields Research
                          ++ ["timestamp"])
    /\ (forall k, k ∈ requiredFields Research ->
          exists v,
            Express.body req !! k = Some v
            /\ Express.truthy v = true
            /\ doc !! k = Some match v with
                               | JsString text => DString text
                               | _ => DJs v
                               end)
    /\ (forall k, k ∈ urlFields Research ->
          exists url, doc !! k = Some (DString url))
    /\ doc !! "timestamp" = Some (DTimestamp (now Sample.startup)).
Proof.
  apply (@stored_record_has_schema_keys Sample.reliable Research
           Posts.repeatedField Sample.startup).
  vm_compute. reflexivity.
Defined.

Lemma file_verdict_reads_declared_type_only_sample :
  Express.validateFiles Research
    (Express.mkReq Posts.fifteen (Some Sample.researchFiles))
  = Express.validateFiles Research
      (Express.mkReq ∅
         (Some (<[ "proposalFile" :=
                     [ mkFile "setup.exe" "application/pdf" Sample.exeBytes;
                       Sample.program ] ]>
                  (<[ "extra" := [Sample.program] ]> Sample.researchFiles)))).
Proof.
  apply file_verdict_reads_declared_type_only.
  repeat constructor.
Defined.
